(** * go-domaindb: normalizer, storage driver, source opener, loader, engine

    A shallow embedding of the Go sources (normalize/normalize.go, misc.go,
    storage.go, error.go, emaildb.go) and the properties settled on it.

    Go strings are byte sequences: they are embedded as [string], one
    [ascii] per byte.  Go maps become [gmap], the domain sets
    ([map[string]struct{}]) become [gset string].  A function that may
    panic returns an [Outcome]. *)

From Stdlib Require Import ZArith NArith Ascii String List Bool Lia.
From stdpp Require Import base option list gmap strings pretty sorting.

Set Warnings "-register-all,-clear-no-such-hyp".

Local Open Scope string_scope.
Local Open Scope list_scope.

(** ** Errors (package errors, fmt.Errorf, syscall, error.go) *)

(** [syscall.ENOENT] is errno 2. *)
Definition ENOENT : Z := 2.
Definition EACCES : Z := 13.

(** Error values.  The text of a message is kept as the format string of the
    source with its double quotes left out and its verbs unexpanded; what
    the code inspects is only the structure ([%w] wrapping, [errors.Join]) and
    the sentinels. *)
Inductive error : Type :=
| Errno (code : Z)                          (* syscall.Errno *)
| PathError (op path : string) (code : Z)   (* fs.PathError around an errno *)
| ErrorString (msg : string)                (* errors.New, fmt.Errorf without %w *)
| Wrapped (msg : string) (inner : error)    (* fmt.Errorf with one %w *)
| Joined (errs : list error)                (* errors.Join *)
| ErrNoCacheAndNoDownload
| ErrDataSourceNoSource
| ErrAllUrlsFailed
| ErrDbClosed
| ErrDbNameTooLong
| ErrClosedPipe                             (* io.ErrClosedPipe *)
| ErrTooLong                                (* bufio.ErrTooLong *)
| NotInitializedError (name : string)
| NoSuchDatabaseError (name : string).

Definition NewNotInitializedError (name : string) : error := NotInitializedError name.
Definition NewNoSuchDatabaseError (name : string) : error := NoSuchDatabaseError name.

(** [errors.Is(err, syscall.ENOENT)]: the chain of [Unwrap]s (through every
    branch of a joined error) holds errno 2. *)
Fixpoint errors_Is_ENOENT (e : error) : bool :=
  match e with
  | Errno c => Z.eqb c ENOENT
  | PathError _ _ c => Z.eqb c ENOENT
  | Wrapped _ inner => errors_Is_ENOENT inner
  | Joined errs => existsb errors_Is_ENOENT errs
  | _ => false
  end.

(** [errors.Is(err, ErrAllUrlsFailed)]. *)
Fixpoint errors_Is_AllUrlsFailed (e : error) : bool :=
  match e with
  | ErrAllUrlsFailed => true
  | Wrapped _ inner => errors_Is_AllUrlsFailed inner
  | Joined errs => existsb errors_Is_AllUrlsFailed errs
  | _ => false
  end.

(** What a Go function that may panic does. *)
Inductive Outcome (A : Type) : Type :=
| Ret (a : A)
| Panic (why : string).
Arguments Ret {A} a.
Arguments Panic {A} why.

Definition obind {A B} (m : Outcome A) (k : A -> Outcome B) : Outcome B :=
  match m with
  | Ret a => k a
  | Panic why => Panic why
  end.

(** A Go result [(value, error)] whose value is the zero value on error. *)
Inductive Result (A : Type) : Type :=
| Ok (a : A)
| Err (e : error).
Arguments Ok {A} a.
Arguments Err {A} e.

(** ** Bytes and strings (packages strings, unicode, unicode/utf8) *)

Module Bytes.

Definition code (c : ascii) : N := N_of_ascii c.
Definition byte (n : N) : ascii := ascii_of_N n.

Definition to_list (s : string) : list ascii := list_ascii_of_string s.
Definition of_list (l : list ascii) : string := string_of_list_ascii l.

(** [len(s)], as a binary number. *)
Definition len (s : string) : N := N.of_nat (String.length s).

Definition rev (s : string) : string := of_list (List.rev (to_list s)).

(** [s[i:]] and [s[:i]]. *)
Fixpoint drop (n : nat) (s : string) : string :=
  match n, s with
  | O, _ => s
  | S n', String _ t => drop n' t
  | S _, EmptyString => EmptyString
  end.

Fixpoint take (n : nat) (s : string) : string :=
  match n, s with
  | O, _ => EmptyString
  | S n', String c t => String c (take n' t)
  | S _, EmptyString => EmptyString
  end.

End Bytes.

Module Utf8.
Import Bytes.
Local Open Scope N_scope.

Definition RuneError : N := 65533.    (* U+FFFD *)
Definition RuneSelf : N := 128.
Definition UTFMax : nat := 4%nat.

Definition inRange (lo hi x : N) : bool := N.leb lo x && N.leb x hi.

(** The table [first] of unicode/utf8 with [acceptRanges]: for a leading
    byte, the length of the sequence and the range the second byte must
    lie in; [None] for a byte that starts no sequence. *)
Definition leading (b : N) : option (nat * N * N) :=
  if inRange 194 223 b then Some (2%nat, 128, 191)
  else if N.eqb b 224 then Some (3%nat, 160, 191)
  else if inRange 225 236 b then Some (3%nat, 128, 191)
  else if N.eqb b 237 then Some (3%nat, 128, 159)
  else if inRange 238 239 b then Some (3%nat, 128, 191)
  else if N.eqb b 240 then Some (4%nat, 144, 191)
  else if inRange 241 243 b then Some (4%nat, 128, 191)
  else if N.eqb b 244 then Some (4%nat, 128, 143)
  else None.

Definition cont (b : N) : bool := inRange 128 191 b.

(** [utf8.DecodeRuneInString]: the first rune of [s] and its width; an
    invalid or truncated sequence gives [(RuneError, 1)], the empty string
    [(RuneError, 0)]. *)
Definition DecodeRuneInString (s : string) : N * nat :=
  match s with
  | EmptyString => (RuneError, 0%nat)
  | String c0 t0 =>
      let s0 := code c0 in
      if N.ltb s0 RuneSelf then (s0, 1%nat)
      else match leading s0 with
      | None => (RuneError, 1%nat)
      | Some (sz, lo, hi) =>
          if Nat.ltb (String.length s) sz then (RuneError, 1%nat)
          else match t0 with
          | EmptyString => (RuneError, 1%nat)
          | String c1 t1 =>
              let s1 := code c1 in
              if negb (inRange lo hi s1) then (RuneError, 1%nat)
              else if Nat.leb sz 2%nat then
                (N.lor (N.shiftl (N.land s0 31) 6) (N.land s1 63), 2%nat)
              else match t1 with
              | EmptyString => (RuneError, 1%nat)
              | String c2 t2 =>
                  let s2 := code c2 in
                  if negb (cont s2) then (RuneError, 1%nat)
                  else if Nat.leb sz 3%nat then
                    (N.lor (N.shiftl (N.land s0 15) 12)
                       (N.lor (N.shiftl (N.land s1 63) 6) (N.land s2 63)), 3%nat)
                  else match t2 with
                  | EmptyString => (RuneError, 1%nat)
                  | String c3 _ =>
                      let s3 := code c3 in
                      if negb (cont s3) then (RuneError, 1%nat)
                      else
                        (N.lor (N.shiftl (N.land s0 7) 18)
                           (N.lor (N.shiftl (N.land s1 63) 12)
                              (N.lor (N.shiftl (N.land s2 63) 6) (N.land s3 63))),
                         4%nat)
                  end
              end
          end
      end
  end.

(** [utf8.RuneStart]. *)
Definition RuneStart (b : N) : bool := negb (N.eqb (N.land b 192) 128).

Definition byteAt (s : string) (i : Z) : N :=
  if Z.ltb i 0 then 0
  else match String.get (Z.to_nat i) s with
       | Some c => code c
       | None => 0
       end.

(** The loop [for start--; start >= lim; start-- { if RuneStart(s[start])
    { break } }] of [DecodeLastRuneInString], entered with [start]
    already decremented.  It looks at three bytes at most, so four rounds
    of fuel always reach its exit. *)
Fixpoint walkBack (s : string) (start lim : Z) (fuel : nat) : Z :=
  match fuel with
  | O => start
  | S fuel' =>
      if Z.ltb start lim then start
      else if RuneStart (byteAt s start) then start
      else walkBack s (start - 1)%Z lim fuel'
  end.

(** [utf8.DecodeLastRuneInString]: the last rune of [s] and its width. *)
Definition DecodeLastRuneInString (s : string) : N * nat :=
  let fin := Z.of_nat (String.length s) in
  if Z.eqb fin 0 then (RuneError, 0%nat)
  else
    let r := byteAt s (fin - 1)%Z in
    if N.ltb r RuneSelf then (r, 1%nat)
    else
      let lim := Z.max 0 (fin - Z.of_nat UTFMax)%Z in
      let start := walkBack s (fin - 2)%Z lim UTFMax in
      let start := Z.max 0 start in
      let '(r', size) := DecodeRuneInString (drop (Z.to_nat start) s) in
      if Z.eqb (start + Z.of_nat size)%Z fin then (r', size) else (RuneError, 1%nat).

(** [utf8.AppendRune]: the encoding of a rune; surrogates and values past
    U+10FFFF are written as U+FFFD. *)
Definition EncodeRune (r : N) : string :=
  let b n := byte n in
  if N.leb r 127 then String (b r) EmptyString
  else if N.leb r 2047 then
    String (b (N.lor 192 (N.shiftr r 6)))
      (String (b (N.lor 128 (N.land r 63))) EmptyString)
  else if (N.ltb 1114111 r) || inRange 55296 57343 r then
    String (b 239) (String (b 191) (String (b 189) EmptyString))
  else if N.leb r 65535 then
    String (b (N.lor 224 (N.shiftr r 12)))
      (String (b (N.lor 128 (N.land (N.shiftr r 6) 63)))
         (String (b (N.lor 128 (N.land r 63))) EmptyString))
  else
    String (b (N.lor 240 (N.shiftr r 18)))
      (String (b (N.lor 128 (N.land (N.shiftr r 12) 63)))
         (String (b (N.lor 128 (N.land (N.shiftr r 6) 63)))
            (String (b (N.lor 128 (N.land r 63))) EmptyString))).

(** [for i, r := range s]: the runes of [s] with the width each one took,
    an invalid byte counting as U+FFFD of width 1.  [skip] counts the
    bytes of the current rune still to be passed over. *)
Fixpoint runesFrom (skip : nat) (s : string) : list (N * nat) :=
  match s with
  | EmptyString => []
  | String _ t =>
      match skip with
      | S k => runesFrom k t
      | O =>
          let '(r, size) := DecodeRuneInString s in
          (r, size) :: runesFrom (size - 1)%nat t
      end
  end.

Definition runes (s : string) : list (N * nat) := runesFrom 0%nat s.

End Utf8.

Module Unicode.
Local Open Scope N_scope.

(** [unicode.IsSpace]: the code points with the White_Space property. *)
Definition IsSpace (r : N) : bool :=
  Utf8.inRange 9 13 r || N.eqb r 32 || N.eqb r 133 || N.eqb r 160
  || N.eqb r 5760 || Utf8.inRange 8192 8202 r || N.eqb r 8232 || N.eqb r 8233
  || N.eqb r 8239 || N.eqb r 8287 || N.eqb r 12288.

End Unicode.

Module Strings.
Import Bytes.

Definition HasPrefix (s p : string) : bool := String.prefix p s.

Definition HasSuffix (s suffix : string) : bool :=
  String.prefix (rev suffix) (rev s).

Definition TrimPrefix (s p : string) : string :=
  if HasPrefix s p then drop (String.length p) s else s.

Definition TrimSuffix (s suffix : string) : string :=
  if HasSuffix s suffix
  then take (String.length s - String.length suffix) s
  else s.

Fixpoint Contains (s substr : string) : bool :=
  String.prefix substr s ||
  match s with
  | EmptyString => false
  | String _ t => Contains t substr
  end.

(** [strings.Split(s, sep)] for a separator of one byte: the pieces
    between the separators, one empty piece for the empty string. *)
Fixpoint Split (s : string) (sep : ascii) : list string :=
  match s with
  | EmptyString => [EmptyString]
  | String c t =>
      if Ascii.eqb c sep then EmptyString :: Split t sep
      else match Split t sep with
           | piece :: rest => String c piece :: rest
           | [] => [String c EmptyString]
           end
  end.

(** [asciiSpace] of package strings. *)
Definition asciiSpace (c : N) : bool :=
  (N.eqb c 9 || N.eqb c 10 || N.eqb c 11 || N.eqb c 12 || N.eqb c 13 || N.eqb c 32)%N.

(** [strings.TrimLeftFunc(s, f)]: [s] from its first rune that [f]
    rejects; empty when there is none. *)
Fixpoint trimLeftFrom (f : N -> bool) (skip : nat) (s : string) : string :=
  match s with
  | EmptyString => EmptyString
  | String _ t =>
      match skip with
      | S k => trimLeftFrom f k t
      | O =>
          let '(r, size) := Utf8.DecodeRuneInString s in
          if f r then trimLeftFrom f (size - 1) t else s
      end
  end.

Definition TrimLeftFunc (s : string) (f : N -> bool) : string := trimLeftFrom f 0 s.

(** [lastIndexFunc(s, f, false)]: the position of the last rune that [f]
    rejects, walking back from position [i]; [None] stands for -1. *)
Fixpoint lastIndexFunc (f : N -> bool) (s : string) (i : nat) (fuel : nat) : option nat :=
  match fuel with
  | O => None
  | S fuel' =>
      match i with
      | O => None
      | S _ =>
          let '(r, size) := Utf8.DecodeLastRuneInString (take i s) in
          let i' := (i - size)%nat in
          if negb (f r) then Some i' else lastIndexFunc f s i' fuel'
      end
  end.

Definition TrimRightFunc (s : string) (f : N -> bool) : string :=
  match lastIndexFunc f s (String.length s) (String.length s) with
  | Some i =>
      if N.leb Utf8.RuneSelf (Utf8.byteAt s (Z.of_nat i))
      then let '(_, wid) := Utf8.DecodeRuneInString (drop i s) in take (i + wid) s
      else take (i + 1) s
  | None => take 0 s
  end.

Definition TrimFunc (s : string) (f : N -> bool) : string :=
  TrimRightFunc (TrimLeftFunc s f) f.

(** The first loop of [strings.TrimSpace]: pass over leading ASCII space;
    [inl] is what remains when a non-ASCII byte is met (the caller then
    falls back to [TrimFunc]), [inr] what remains otherwise. *)
Fixpoint trimSpaceStart (s : string) : string + string :=
  match s with
  | EmptyString => inr EmptyString
  | String c t =>
      if N.leb Utf8.RuneSelf (code c) then inl s
      else if asciiSpace (code c) then trimSpaceStart t
      else inr s
  end.

(** The second loop, on the reversed rest: [inl] when a non-ASCII byte is
    met from the end. *)
Fixpoint trimSpaceStop (r : list ascii) : list ascii + list ascii :=
  match r with
  | [] => inr []
  | c :: t =>
      if N.leb Utf8.RuneSelf (code c) then inl r
      else if asciiSpace (code c) then trimSpaceStop t
      else inr r
  end.

Definition TrimSpace (s : string) : string :=
  match trimSpaceStart s with
  | inl rest => TrimFunc rest Unicode.IsSpace
  | inr rest =>
      match trimSpaceStop (List.rev (to_list rest)) with
      | inl r => TrimRightFunc (of_list (List.rev r)) Unicode.IsSpace
      | inr r => of_list (List.rev r)
      end
  end.

Definition isASCII (s : string) : bool :=
  forallb (fun c => N.ltb (code c) Utf8.RuneSelf) (to_list s).

Definition lowerByte (c : ascii) : ascii :=
  let n := code c in
  if (N.leb 65 n && N.leb n 90)%N then byte (n + 32) else c.

Fixpoint mapBytes (f : ascii -> ascii) (s : string) : string :=
  match s with
  | EmptyString => EmptyString
  | String c t => String (f c) (mapBytes f t)
  end.

(** [strings.ToLower]: byte-wise on an ASCII string; a string with a
    non-ASCII byte goes through [strings.Map(unicode.ToLower, s)], whose
    case tables are given by [unicodeLower]. *)
Definition ToLower (unicodeLower : string -> string) (s : string) : string :=
  if isASCII s then mapBytes lowerByte s else unicodeLower s.

(** [Replacer.Replace] of a replacer built by
    [strings.NewReplacer] from pairs whose old strings are not empty: at
    each position the first pair (in argument order) whose old string
    starts there is applied, else the byte is copied. *)
Fixpoint replaceFrom (pairs : list (string * string)) (skip : nat) (s : string) : string :=
  match s with
  | EmptyString => EmptyString
  | String c t =>
      match skip with
      | S k => replaceFrom pairs k t
      | O =>
          match List.find (fun p => String.prefix (fst p) s) pairs with
          | Some (old, new) => new +:+ replaceFrom pairs (String.length old - 1) t
          | None => String c (replaceFrom pairs 0 t)
          end
      end
  end.

Definition Replace (pairs : list (string * string)) (s : string) : string :=
  replaceFrom pairs 0 s.

Fixpoint bytes (l : list N) : string :=
  match l with
  | [] => EmptyString
  | n :: l' => String (byte n) (bytes l')
  end.

End Strings.

(** ** Checkpoints *)

(** Modelled from the spec: the declarations of [Checkpoint],
    [AllCheckpoints] and [DbNameMaxSize] are not among the sources.  The
    spec gives the document as a mapping from database name to a record with
    the integer [LastUpdatedUnix], under the key [Checkpoints], and the
    limit of a name as 255 bytes.  The map of a document is taken to be
    allocated (reading a document whose map is null is left out). *)
Record Checkpoint : Type := { LastUpdatedUnix : Z }.

Record AllCheckpoints : Type := { Checkpoints : gmap string Checkpoint }.

Definition DbNameMaxSize : N := 255.

(** ** The libraries outside the repository

    [golang.org/x/net/idna], the case tables of package unicode and
    [encoding/json] are not part of the repository: the embedding takes
    them as given. *)
Record External : Type := {
  (** [Profile.ToASCII] of the profile [NewDomainNormalizer] configures
      (registration validation, lookup mapping, Bidi rule, non-transitional,
      STD3 rules). *)
  idna_ToASCII : string -> Result string;
  (** [idna.ToASCII] of the package itself (the Punycode profile). *)
  idna_Punycode_ToASCII : string -> Result string;
  (** [strings.Map(unicode.ToLower, s)]. *)
  unicode_ToLower : string -> string;
  (** What [json.Encoder.Encode] writes for a checkpoints document (the
      value and a newline), or the error of marshalling it. *)
  json_Encode : AllCheckpoints -> Result string;
  (** What [json.Decoder.Decode] makes of the bytes of a file: the first
      JSON value of the stream is decoded. *)
  json_Decode : string -> Result AllCheckpoints
}.

(** ** Package normalize (normalize/normalize.go) *)

Module normalize.
Import Bytes.

Record DomainNormalizer : Type := {
  profile : string -> Result string;
  dotReplacer : list (string * string)
}.

Definition NewDomainNormalizer (ext : External) : DomainNormalizer :=
  {| profile := idna_ToASCII ext;
     dotReplacer :=
       [ (Strings.bytes [227; 128; 130]%N, ".");     (* U+3002 *)
         (Strings.bytes [239; 188; 142]%N, ".");     (* U+FF0E *)
         (Strings.bytes [239; 189; 161]%N, ".") ]    (* U+FF61 *) |}.

(** The runes [stripInvisibleChars] drops: ASCII controls and DEL, the
    zero-width characters, the basic bidi controls. *)
Definition invisible (r : N) : bool :=
  (N.leb r 31 || N.eqb r 127
   || N.eqb r 8203 || N.eqb r 8204 || N.eqb r 8205 || N.eqb r 8288 || N.eqb r 65279
   || Utf8.inRange 8234 8238 r)%N.

Fixpoint writeRunes (rs : list (N * nat)) : string :=
  match rs with
  | [] => EmptyString
  | (r, _) :: rs' =>
      if invisible r then writeRunes rs'
      else Utf8.EncodeRune r +:+ writeRunes rs'
  end.

Definition stripInvisibleChars (s : string) : string :=
  writeRunes (Utf8.runes s).

Definition isAlnum (b : N) : bool :=
  ((N.leb 97 b && N.leb b 122) || (N.leb 48 b && N.leb b 57))%N.

Definition isLDHOrPunycode (lbl : string) : bool :=
  let l := String.length lbl in
  if Nat.eqb l 0 then false
  else if negb (isAlnum (Utf8.byteAt lbl (Z.of_nat l - 1))) then false
  else if negb (isAlnum (Utf8.byteAt lbl 0)) && negb (Strings.HasPrefix lbl "xn--") then false
  else
    forallb (fun c =>
               let c := code c in
               ((N.leb 97 c && N.leb c 122) || (N.leb 48 c && N.leb c 57) || N.eqb c 45)%N)
            (to_list lbl).

(** The loop [for strings.HasPrefix(s, ".") { s = strings.TrimPrefix(s, ".") }]. *)
Fixpoint trimLeadingDots (s : string) : string :=
  match s with
  | String c t => if Ascii.eqb c "." then trimLeadingDots t else s
  | EmptyString => s
  end.

(** The loop [for strings.HasSuffix(s, ".") { s = strings.TrimSuffix(s, ".") }]. *)
Definition trimTrailingDots (s : string) : string :=
  rev (trimLeadingDots (rev s)).

(** The loop over the labels of the ASCII form: the first label that is
    empty, longer than 63 bytes or not LDH stops it with an error. *)
Fixpoint checkLabels (labels : list string) : option error :=
  match labels with
  | [] => None
  | lbl :: rest =>
      let l := len lbl in
      if (N.eqb l 0 || N.ltb 63 l)%N
      then Some (ErrorString "label %q length %d out of range 1..63")
      else if negb (isLDHOrPunycode lbl)
      then Some (ErrorString "label %q contains invalid ASCII characters")
      else checkLabels rest
  end.

Section WithExternal.
Variable ext : External.

Definition NormalizeDomain (n : DomainNormalizer) (input : string) : Result string :=
  let s := Strings.TrimSpace input in
  if String.eqb s EmptyString then Err (ErrorString "empty domain") else
  let s := Strings.Replace (dotReplacer n) s in
  let s := stripInvisibleChars s in
  if String.eqb s EmptyString then Err (ErrorString "empty domain after stripping invisibles") else
  let s := if Strings.HasSuffix s "." then Strings.TrimSuffix s "." else s in
  if String.eqb s EmptyString then Err (ErrorString "domain has no labels") else
  let s := trimLeadingDots s in
  let s := trimTrailingDots s in
  if Strings.Contains s ".." then Err (ErrorString "domain contains empty label") else
  let parts := Strings.Split s "." in
  if existsb (fun p => String.eqb p EmptyString) parts
  then Err (ErrorString "domain contains empty label") else
  match profile n s with
  | Err err => Err (Wrapped "idna toASCII: %w" err)
  | Ok ascii =>
      let ascii := Strings.ToLower (unicode_ToLower ext) ascii in
      let labels := Strings.Split ascii "." in
      match checkLabels labels with
      | Some err => Err err
      | None =>
          if N.ltb 253 (len ascii)
          then Err (ErrorString "domain length %d exceeds 253 characters")
          else Ok ascii
      end
  end.

End WithExternal.

End normalize.

(** ** Streams (io.Reader, io.ReadCloser) *)

(** A reader is embedded by what it delivers: the bytes it yields over all
    its reads, and how it ends, with [io.EOF] ([None]) or with an error.
    The sizes of the single reads are not part of the embedding. *)
Record Stream : Type := {
  data : string;
  final : option error
}.

(** ** The file system under the data directory (package os)

    Files are their paths and contents.  Opening and writing may fail with
    an injected errno; [os.Stat] finds exactly the files that exist and
    [os.Rename] fails only for a missing source.  Every call is recorded in
    [trace], oldest first. *)
Inductive Syscall : Type :=
| SysStat (path : string)
| SysRename (oldpath newpath : string)
| SysOpen (path : string) (flag : Z)
| SysWrite (path : string) (count : nat).

Record Fs : Type := {
  files : gmap string string;
  open_fault : string -> option Z;
  write_fault : string -> option Z;
  trace : list Syscall
}.

Definition record (c : Syscall) (fs : Fs) : Fs :=
  {| files := files fs; open_fault := open_fault fs;
     write_fault := write_fault fs; trace := trace fs ++ [c] |}.

Definition setFiles (m : gmap string string) (fs : Fs) : Fs :=
  {| files := m; open_fault := open_fault fs;
     write_fault := write_fault fs; trace := trace fs |}.

(** Flags of [os.OpenFile] (the values of package syscall on Linux). *)
Definition O_RDONLY : Z := 0.
Definition O_WRONLY : Z := 1.
Definition O_CREAT : Z := 64.
Definition O_TRUNC : Z := 512.

(** An open file: its path and the offset of the next write. *)
Record File : Type := { fpath : string; foffset : nat }.

(** [os.Stat]: [None] (a nil error) exactly for a file that exists. *)
Definition os_Stat (path : string) (fs : Fs) : option error * Fs :=
  let fs := record (SysStat path) fs in
  match files fs !! path with
  | Some _ => (None, fs)
  | None => (Some (PathError "stat" path ENOENT), fs)
  end.

(** [os.Rename]: the file moves to the new path, replacing what was there. *)
Definition os_Rename (oldpath newpath : string) (fs : Fs) : option error * Fs :=
  let fs := record (SysRename oldpath newpath) fs in
  match files fs !! oldpath with
  | Some content => (None, setFiles (<[newpath := content]> (delete oldpath (files fs))) fs)
  | None => (Some (PathError "rename" oldpath ENOENT), fs)
  end.

(** [os.OpenFile]: an existing file is opened as it is, and emptied only
    under [O_TRUNC]; a missing file is created empty under [O_CREAT]. *)
Definition os_OpenFile (path : string) (flag : Z) (perm : Z) (fs : Fs) : Result File * Fs :=
  let fs := record (SysOpen path flag) fs in
  match open_fault fs path with
  | Some errno => (Err (PathError "open" path errno), fs)
  | None =>
      match files fs !! path with
      | Some _ =>
          if Z.eqb (Z.land flag O_TRUNC) 0
          then (Ok {| fpath := path; foffset := 0 |}, fs)
          else (Ok {| fpath := path; foffset := 0 |}, setFiles (<[path := EmptyString]> (files fs)) fs)
      | None =>
          if Z.eqb (Z.land flag O_CREAT) 0
          then (Err (PathError "open" path ENOENT), fs)
          else (Ok {| fpath := path; foffset := 0 |}, setFiles (<[path := EmptyString]> (files fs)) fs)
      end
  end.

(** Writing [b] over [old] at offset [off]: the bytes before stay, the
    bytes under [b] are replaced, the bytes past its end stay. *)
Definition overwrite (old : string) (off : nat) (b : string) : string :=
  Bytes.take off old +:+ b +:+ Bytes.drop (off + String.length b) old.

(** [File.Write]. *)
Definition file_Write (f : File) (b : string) (fs : Fs) : option error * File * Fs :=
  let fs := record (SysWrite (fpath f) (String.length b)) fs in
  match write_fault fs (fpath f) with
  | Some errno => (Some (PathError "write" (fpath f) errno), f, fs)
  | None =>
      let old := default EmptyString (files fs !! fpath f) in
      (None,
       {| fpath := fpath f; foffset := foffset f + String.length b |},
       setFiles (<[fpath f := overwrite old (foffset f) b]> (files fs)) fs)
  end.

(** [io.Copy(file, input)]: what the reader delivers is written to the
    file; the error is that of the write, else that of the reader, and nil
    when the reader ends with [io.EOF]. *)
Definition io_Copy (f : File) (input : Stream) (fs : Fs) : option error * Fs :=
  if String.eqb (data input) EmptyString then (final input, fs)
  else
    match file_Write f (data input) fs with
    | (Some err, _, fs) => (Some err, fs)
    | (None, _, fs) => (final input, fs)
    end.

(** [filepath.Join] of the (absolute, clean) data directory and a file name
    without separators. *)
Definition filepath_Join (dir name : string) : string := dir +:+ "/" +:+ name.

(** [url.QueryEscape]: letters, digits, [-], [_], [.] and [~] stay, a space
    becomes [+], every other byte becomes [%XX]. *)
Definition hexDigit (n : N) : ascii :=
  if N.ltb n 10 then Bytes.byte (48 + n) else Bytes.byte (55 + n).

Definition shouldEscape (c : N) : bool :=
  negb ((N.leb 97 c && N.leb c 122) || (N.leb 65 c && N.leb c 90) || (N.leb 48 c && N.leb c 57)
        || N.eqb c 45 || N.eqb c 95 || N.eqb c 46 || N.eqb c 126)%N.

Fixpoint url_QueryEscape (s : string) : string :=
  match s with
  | EmptyString => EmptyString
  | String c t =>
      let n := Bytes.code c in
      if N.eqb n 32 then String "+" (url_QueryEscape t)
      else if shouldEscape n
      then String "%" (String (hexDigit (N.shiftr n 4)) (String (hexDigit (N.land n 15))
             (url_QueryEscape t)))
      else String c (url_QueryEscape t)
  end.

(** ** storage.go *)

(** The interface [StorageDriver], over the state [St] a driver keeps.
    [ReadCheckpoints] promises checkpoints that are not nil when it returns
    no error, so its result is a document or an error; [ReadDatabase] keeps
    the pair, of which the reader may be nil. *)
Class StorageDriver (St : Type) : Type := {
  WriteDatabase : string -> Stream -> St -> option error * St;
  ReadDatabase : string -> St -> (option Stream * option error) * St;
  WriteCheckpoints : AllCheckpoints -> St -> option error * St;
  ReadCheckpoints : St -> Result AllCheckpoints * St
}.

Definition fsPermBits : Z := 420.   (* 0644 *)
Definition checkpointsFilename : string := "checkpoints.json".

Record FsStorageDriver : Type := { dataDir : string }.

Section FsDriver.
Variable ext : External.

Definition dbNameToFilename (s : FsStorageDriver) (name : string) : Result string :=
  if N.ltb DbNameMaxSize (Bytes.len name) then Err ErrDbNameTooLong
  else Ok (url_QueryEscape name +:+ ".txt").

(** The function [WriteDatabase] defers, once the file is backed up: when
    [err] is not nil, the backup is renamed back (the error of that rename
    is dropped). *)
Definition restoreBackup (backedUp : bool) (bakFilePath filePath : string)
    (err : option error) (fs : Fs) : Fs :=
  if backedUp then
    match err with
    | Some _ => snd (os_Rename bakFilePath filePath fs)
    | None => fs
    end
  else fs.

Definition FsStorageDriver_WriteDatabase (s : FsStorageDriver) (name : string)
    (input : Stream) (fs : Fs) : option error * Fs :=
  match dbNameToFilename s name with
  | Err err => (Some err, fs)
  | Ok filename =>
      let filePath := filepath_Join (dataDir s) filename in
      let bakFilePath := filepath_Join (dataDir s) (filename +:+ ".bak") in
      (* Move existing file to backup if it exists. *)
      let '(statErr, fs) := os_Stat filePath fs in
      let moved : (error * Fs) + (bool * Fs) :=
        match statErr with
        | None =>
            match os_Rename filePath bakFilePath fs with
            | (Some err, fs) =>
                inl (Wrapped "failed to move existing file %s to backup path %s: %w" err, fs)
            | (None, fs) => inr (true, fs)
            end
        | Some _ => inr (false, fs)
        end in
      match moved with
      | inl (err, fs) => (Some err, fs)
      | inr (backedUp, fs) =>
          match os_OpenFile filePath (Z.lor O_CREAT O_WRONLY) fsPermBits fs with
          | (Err err, fs) =>
              (Some (Wrapped "failed to open file %s for writing database %s: %w" err),
               restoreBackup backedUp bakFilePath filePath (Some err) fs)
          | (Ok file, fs) =>
              match io_Copy file input fs with
              | (Some err, fs) =>
                  (Some (Wrapped "failed to copy input to file %s for writing database %s: %w" err),
                   restoreBackup backedUp bakFilePath filePath (Some err) fs)
              | (None, fs) =>
                  (None, restoreBackup backedUp bakFilePath filePath None fs)
              end
          end
      end
  end.

Definition FsStorageDriver_ReadDatabase (s : FsStorageDriver) (name : string)
    (fs : Fs) : (option Stream * option error) * Fs :=
  match dbNameToFilename s name with
  | Err err => ((None, Some err), fs)
  | Ok filename =>
      let filePath := filepath_Join (dataDir s) filename in
      match os_OpenFile filePath O_RDONLY 0 fs with
      | (Err err, fs) =>
          ((None, Some (Wrapped "failed to open file %s for database type %s: %w" err)), fs)
      | (Ok file, fs) =>
          ((Some {| data := default EmptyString (files fs !! fpath file); final := None |},
            None), fs)
      end
  end.

Definition FsStorageDriver_WriteCheckpoints (s : FsStorageDriver)
    (checkpoints : AllCheckpoints) (fs : Fs) : option error * Fs :=
  let filePath := filepath_Join (dataDir s) checkpointsFilename in
  match os_OpenFile filePath (Z.lor O_CREAT O_WRONLY) fsPermBits fs with
  | (Err err, fs) =>
      (Some (Wrapped "failed to open file %s for writing checkpoints: %w" err), fs)
  | (Ok file, fs) =>
      let encoded : option error * Fs :=
        match json_Encode ext checkpoints with
        | Err err => (Some err, fs)
        | Ok b =>
            match file_Write file b fs with
            | (err, _, fs) => (err, fs)
            end
        end in
      match encoded with
      | (Some err, fs) =>
          (Some (Wrapped "failed to encode checkpoints to JSON file at %s: %w" err), fs)
      | (None, fs) => (None, fs)
      end
  end.

Definition FsStorageDriver_ReadCheckpoints (s : FsStorageDriver) (fs : Fs)
    : Result AllCheckpoints * Fs :=
  let filePath := filepath_Join (dataDir s) checkpointsFilename in
  match os_OpenFile filePath O_RDONLY 0 fs with
  | (Err err, fs) =>
      (Err (Wrapped "failed to open file %s for reading checkpoints: %w" err), fs)
  | (Ok file, fs) =>
      match json_Decode ext (default EmptyString (files fs !! fpath file)) with
      | Err err =>
          (Err (Wrapped "failed to decode checkpoints from JSON file at %s: %w" err), fs)
      | Ok res => (Ok res, fs)
      end
  end.

#[export] Instance FsStorageDriver_StorageDriver (s : FsStorageDriver) : StorageDriver Fs := {
  WriteDatabase := FsStorageDriver_WriteDatabase s;
  ReadDatabase := FsStorageDriver_ReadDatabase s;
  WriteCheckpoints := FsStorageDriver_WriteCheckpoints s;
  ReadCheckpoints := FsStorageDriver_ReadCheckpoints s
}.

End FsDriver.

(** ** misc.go *)

(** [NormalizeDomainName] as the misc file that goes through package
    normalize has it. *)
Definition NormalizeDomainName (ext : External) (domain : string) : Result string :=
  let n := normalize.NewDomainNormalizer ext in
  normalize.NormalizeDomain ext n domain.

(** The body the other misc file among the sources gives the same function:
    [idna.ToASCII(strings.ToLower(domain))]. *)
Definition NormalizeDomainName_ToASCII (ext : External) (domain : string) : Result string :=
  idna_Punycode_ToASCII ext (Strings.ToLower (unicode_ToLower ext) domain).

(** ** emaildb.go *)

(** What [http.Client.Do] gives for a GET of a URL. *)
Inductive HttpResult : Type :=
| HttpError (err : error)
| HttpResponse (StatusCode : Z) (Body : Stream).

(** The surroundings of the engine: the answers of the HTTP client, the
    clock ([time.Now().Unix()]), and [pulled], the bytes a scanner has drawn
    from its reader when it stops before the reader is exhausted, after a
    given number of lines (this depends on the sizes of the reads). *)
Record Env : Type := {
  http : string -> HttpResult;
  now : Z;
  pulled : string -> nat -> string
}.

Record DataSource : Type := {
  Urls : list string;
  Get : option (Env -> option Stream * option error);
  RefreshInterval : Z
}.

Record dbUpdate : Type := { Ts : Z; Name : string }.

Module db.
(** [dbSrcMap]; the mutex [Mu] has no counterpart in a sequential run. *)
Record dbSrcMap : Type := {
  Has : bool;
  Src : DataSource;
  Domains : gset string;
  LastUpdatedUnix : Z
}.
End db.
Abbreviation dbSrcMap := db.dbSrcMap.

(** [DomainDb].  The storage driver is the [StorageDriver] instance in
    scope, its state is passed along; [updates] holds the messages sent on
    the channel, oldest first. *)
Record DomainDb : Type := {
  disableDl : bool;
  updates : list dbUpdate;
  dbs : gmap string dbSrcMap;
  isRunning : bool
}.

Record Options : Type := {
  DisableDownload : bool;
  LoadDatabasesInBackground : bool;
  Sources : gmap string DataSource
}.

(** The goroutines a call starts. *)
Inductive Goroutine : Type :=
| BackgroundSetup
| CheckpointWriter (checkpoints : AllCheckpoints)
| Updater (name : string) (lastUpdate : Z) (updateInterval : Z).

Definition setDomains (name : string) (domains : gset string) (s : DomainDb) : DomainDb :=
  {| disableDl := disableDl s; updates := updates s;
     dbs := alter (fun d => {| db.Has := db.Has d; db.Src := db.Src d;
                               db.Domains := domains;
                               db.LastUpdatedUnix := db.LastUpdatedUnix d |}) name (dbs s);
     isRunning := isRunning s |}.

Definition setLastUpdatedUnix (name : string) (t : Z) (s : DomainDb) : DomainDb :=
  {| disableDl := disableDl s; updates := updates s;
     dbs := alter (fun d => {| db.Has := db.Has d; db.Src := db.Src d;
                               db.Domains := db.Domains d;
                               db.LastUpdatedUnix := t |}) name (dbs s);
     isRunning := isRunning s |}.

(** *** bufio.Scanner with the default split function ScanLines *)

Definition MaxScanTokenSize : N := 65536.

(** How a scan ended: the reader was exhausted (by [io.EOF] or by an error
    of a read), or a line did not fit the buffer ([bufio.ErrTooLong]). *)
Inductive ScanEnd : Type := ReaderExhausted | TokenTooLong.

Definition dropCR (line : string) : string :=
  if Strings.HasSuffix line (String (Bytes.byte 13) EmptyString)
  then Bytes.take (String.length line - 1) line else line.

(** The tokens of a list of pieces between newlines: the last piece is a
    token only when it is not empty; a piece of [MaxScanTokenSize] bytes or
    more fills the buffer and ends the scan. *)
Fixpoint tokensOf (pieces : list string) : list string * ScanEnd :=
  match pieces with
  | [] => ([], ReaderExhausted)
  | piece :: rest =>
      if N.leb MaxScanTokenSize (Bytes.len piece) then ([], TokenTooLong)
      else match rest with
           | [] => (if String.eqb piece EmptyString then [] else [dropCR piece],
                    ReaderExhausted)
           | _ :: _ => let '(ts, e) := tokensOf rest in (dropCR piece :: ts, e)
           end
  end.

(** The lines [scanner.Scan()] and [scanner.Text()] give for a reader.  An
    error of the reader ends the scan like [io.EOF] does, after the bytes
    read so far have been split. *)
Definition scanLines (reader : Stream) : list string * ScanEnd :=
  tokensOf (Strings.Split (data reader) (Bytes.byte 10)).

(** *** The engine *)

Section Engine.
(** The function [NormalizeDomainName] of the misc file; both bodies
    found among the sources fit here. *)
Variable normalizeDomainName : string -> Result string.

Definition maxFailures : nat := 10.

Definition parseFailuresMessage : string :=
  "encountered %d parse failures while loading datacenter ranges, but only %d lines were successfully parsed. file is probably malformed; expected newline-separated list of domain names. this error wraps the encountered parse errors: %w".

(** The state of the loop of [loadDomainsFromReader]. *)
Record LoadState : Type := {
  domains : gset string;
  failures : list error;
  goodLines : nat;
  scanned : nat        (* calls of Scan that gave a line *)
}.

(** The body of the loop for one line. *)
Definition loadLine (line : string) (st : LoadState) : LoadState :=
  (* Skip empty lines and comments. *)
  if String.eqb line EmptyString || N.eqb (Utf8.byteAt line 0) 35
  then st
  else
    match normalizeDomainName line with
    | Err err =>
        {| domains := domains st;
           failures := failures st ++ [Wrapped "failed to normalize domain name %s: %w" err];
           goodLines := goodLines st;
           scanned := scanned st |}
    | Ok normalized =>
        {| domains := {[ normalized ]} ∪ domains st;
           failures := failures st;
           goodLines := S (goodLines st);
           scanned := scanned st |}
    end.

Definition countScan (st : LoadState) : LoadState :=
  {| domains := domains st; failures := failures st;
     goodLines := goodLines st; scanned := S (scanned st) |}.

(** [for scanner.Scan() && len(failures) < maxFailures { ... }]: [Scan] is
    called first, so the line after the tenth failure is taken from the
    scanner and not looked at.  The boolean tells whether the loop ended
    because [Scan] gave no line. *)
Fixpoint scanLoop (lines : list string) (st : LoadState) : LoadState * bool :=
  match lines with
  | [] => (st, true)
  | line :: rest =>
      let st := countScan st in
      if Nat.ltb (length (failures st)) maxFailures
      then scanLoop rest (loadLine line st)
      else (st, false)
  end.

Definition initialLoad : LoadState :=
  {| domains := ∅; failures := []; goodLines := 0; scanned := 0 |}.

Definition runScan (reader : Stream) : LoadState * bool :=
  scanLoop (fst (scanLines reader)) initialLoad.

(** [loadDomainsFromReader]. *)
Definition loadDomainsFromReader (s : DomainDb) (reader : Stream) (name : string)
    : Outcome (option error * DomainDb) :=
  let data := dbs s !! name in
  let '(st, _) := runScan reader in
  if Nat.ltb (goodLines st) (length (failures st))
  then Ret (Some (Wrapped parseFailuresMessage (Joined (failures st))), s)
  else
    match data with
    | None => Panic "nil pointer dereference"
    | Some _ => Ret (None, setDomains name (domains st) s)
    end.

(** The bytes the tee has passed on to the pipe when the load returns:
    all of them when the scan ran to the end of the reader, else what the
    scanner had drawn. *)
Definition teed (env : Env) (reader : Stream) : string :=
  let '(lines, scanEnd) := scanLines reader in
  let '(st, exhausted) := scanLoop lines initialLoad in
  match exhausted, scanEnd with
  | true, ReaderExhausted => data reader
  | _, _ => pulled env (data reader) (scanned st)
  end.

(** One URL of [openDataSource]: the bytes copied into the pipe and the
    failure recorded, if any. *)
Definition fetchUrl (env : Env) (srcUrl : string) : string * option error :=
  match http env srcUrl with
  | HttpError err =>
      (EmptyString, Some (Wrapped "failed to download database (source URL %s): %w" err))
  | HttpResponse StatusCode Body =>
      if negb (Z.eqb StatusCode 200) then
        let bodyStr := Bytes.take 1024 (data Body) in
        (EmptyString,
         Some (ErrorString ("failed to download database (source URL %s) because status code was %d (expected 200): " +:+ bodyStr)))
      else
        match final Body with
        | Some err =>
            (data Body,
             Some (Wrapped "failed to download database (source URL %s, bytes written: %d): %w" err))
        | None => (data Body, None)
        end
  end.

(** The loop over the URLs: what is written to the pipe (each body, then a
    newline) and the failures, in order. *)
Fixpoint fetchAll (env : Env) (urls : list string) : string * list error :=
  match urls with
  | [] => (EmptyString, [])
  | srcUrl :: rest =>
      let '(body, failure) := fetchUrl env srcUrl in
      let '(more, fs) := fetchAll env rest in
      (body +:+ String (Bytes.byte 10) more,
       match failure with Some err => err :: fs | None => fs end)
  end.

(** The read end of the pipe the goroutine of [openDataSource] fills. *)
Definition urlPipe (env : Env) (urls : list string) : Stream :=
  let '(written, fs) := fetchAll env urls in
  if Nat.eqb (length fs) (length urls)
  then {| data := written; final := Some (Joined (fs ++ [ErrAllUrlsFailed])) |}
  else {| data := written; final := None |}.

Definition openDataSource (env : Env) (src : DataSource) : option Stream * option error :=
  match Get src with
  | Some get =>
      match get env with
      | (_, Some err) => (None, Some (Wrapped "failed to get database (source Get function): %w" err))
      | (reader, None) => (reader, None)
      end
  | None =>
      if Nat.ltb 0 (length (Urls src))
      then (Some (urlPipe env (Urls src)), None)
      else (None, Some ErrDataSourceNoSource)
  end.

Context {St : Type} {driver : StorageDriver St}.

(** [DownloadAndLoadDatabase].  The goroutine that hands the pipe to
    [WriteDatabase] is run after the load, on the bytes the tee passed on;
    a writer that gives up early and thereby breaks the tee is not
    followed. *)
Definition DownloadAndLoadDatabase (env : Env) (s : DomainDb) (st : St) (name : string)
    : Outcome (option error * DomainDb * St) :=
  match dbs s !! name with
  | None => Ret (Some (NewNoSuchDatabaseError name), s, st)
  | Some data =>
      match openDataSource env (db.Src data) with
      | (_, Some err) =>
          Ret (Some (Wrapped "failed to read from source of data with name %s: %w" err), s, st)
      | (None, None) => Panic "nil pointer dereference"
      | (Some reader, None) =>
          obind (loadDomainsFromReader s reader name) (fun '(err, s) =>
            match err with
            | Some err =>
                let wrapped := Wrapped "failed to parse database with name %s: %w" err in
                let '(_, st) :=
                  WriteDatabase name {| data := teed env reader; final := Some wrapped |} st in
                Ret (Some wrapped, s, st)
            | None =>
                match WriteDatabase name {| data := teed env reader; final := None |} st with
                | (Some err, st) =>
                    Ret (Some (Wrapped "failed to write database with name %s: %w" err), s, st)
                | (None, st) => Ret (None, s, st)
                end
            end)
      end
  end.

Definition DoesDbHaveDomain (s : DomainDb) (dbName : string) (domain : string)
    : bool * option error :=
  match dbs s !! dbName with
  | None => (false, Some (NewNoSuchDatabaseError dbName))
  | Some data =>
      match normalizeDomainName domain with
      | Err err => (false, Some err)
      | Ok normalized => (bool_decide (normalized ∈ db.Domains data), None)
      end
  end.

Definition Close (s : DomainDb) : DomainDb :=
  {| disableDl := disableDl s; updates := updates s; dbs := ∅; isRunning := false |}.

(** The closure [update] of [runUpdater]: one scheduled refresh and, when
    it succeeds, the message to the checkpoint writer. *)
Definition runUpdater_update (env : Env) (s : DomainDb) (st : St) (name : string)
    : Outcome (option error * DomainDb * St) :=
  obind (DownloadAndLoadDatabase env s st name) (fun '(err, s, st) =>
    match err with
    | Some err => Ret (Some err, s, st)
    | None =>
        if negb (isRunning s) then Ret (Some ErrDbClosed, s, st)
        else
          Ret (None,
               {| disableDl := disableDl s;
                  updates := updates s ++ [{| Ts := now env; Name := name |}];
                  dbs := dbs s; isRunning := isRunning s |},
               st)
    end).

(** How the first loop of [setup] is left: by running to its end, or by a
    [return] with the error given. *)
Inductive LoopExit : Type :=
| Completed
| Returned (err : option error).

(** The loop of [setup] that reads or downloads every database.  [toClose]
    collects what [ReadDatabase] returned, a nil reader included. *)
Fixpoint readDatabases (env : Env) (alreadyHadCheckpoints : bool) (names : list string)
    (s : DomainDb) (st : St) (toClose : list (option Stream))
    : Outcome (LoopExit * DomainDb * St * list (option Stream)) :=
  match names with
  | [] => Ret (Completed, s, st, toClose)
  | name :: rest =>
      if negb (isRunning s) then Ret (Returned None, s, st, toClose)
      else
        let cached : (error + option Stream) * St * list (option Stream) :=
          if alreadyHadCheckpoints then
            let '((reader, err), st) := ReadDatabase name st in
            match err with
            | Some err =>
                if negb (errors_Is_ENOENT err)
                then (inl (Wrapped "failed to read database with name %s during initialization: %w" err),
                      st, toClose)
                else (inr reader, st, toClose ++ [reader])
            | None => (inr reader, st, toClose ++ [reader])
            end
          else (inr None, st, toClose) in
        match cached with
        | (inl err, st, toClose) => Ret (Returned (Some err), s, st, toClose)
        | (inr None, st, toClose) =>
            (* No cached database. *)
            if disableDl s
            then Ret (Returned (Some (Wrapped "cannot download database with name %s during initialization: %w"
                                        ErrNoCacheAndNoDownload)), s, st, toClose)
            else
              (* Try downloading it. *)
              obind (DownloadAndLoadDatabase env s st name) (fun '(err, s, st) =>
                match err with
                | Some err =>
                    Ret (Returned (Some (Wrapped "failed to download database with name %s during initialization: %w" err)),
                         s, st, toClose)
                | None =>
                    readDatabases env alreadyHadCheckpoints rest
                      (setLastUpdatedUnix name (now env) s) st toClose
                end)
        | (inr (Some reader), st, toClose) =>
            obind (loadDomainsFromReader s reader name) (fun '(err, s) =>
              match err with
              | Some err =>
                  Ret (Returned (Some (Wrapped "failed to load database with name %s during initialization: %w" err)),
                       s, st, toClose)
              | None => readDatabases env alreadyHadCheckpoints rest s st toClose
              end)
        end
  end.

(** The loop of [setup] that brings the checkpoints document up to date. *)
Definition populateCheckpoints (names : list string) (s : DomainDb)
    (checkpoints : AllCheckpoints) : AllCheckpoints :=
  {| Checkpoints :=
       fold_left
         (fun (cps : gmap string Checkpoint) name =>
            match dbs s !! name with
            | None => cps
            | Some data =>
                let chkPnt := default {| LastUpdatedUnix := 0 |} (cps !! name) in
                let chkPnt :=
                  if negb (Z.eqb (db.LastUpdatedUnix data) 0)
                  then {| LastUpdatedUnix := db.LastUpdatedUnix data |}
                  else chkPnt in
                <[name := chkPnt]> cps
            end)
         names (Checkpoints checkpoints) |}.

(** The updaters [setup] starts, one for each database. *)
Definition updaters (names : list string) (s : DomainDb) (checkpoints : AllCheckpoints)
    : list Goroutine :=
  omap (fun name =>
          match dbs s !! name with
          | None => None
          | Some data =>
              let chkPnt := default {| LastUpdatedUnix := 0 |} (Checkpoints checkpoints !! name) in
              Some (Updater name (LastUpdatedUnix chkPnt) (RefreshInterval (db.Src data)))
          end) names.

(** The function [setup] defers: every reader collected is closed, and
    closing a nil reader panics. *)
Fixpoint closeAll (toClose : list (option Stream)) : Outcome unit :=
  match toClose with
  | [] => Ret tt
  | Some _ :: rest => closeAll rest
  | None :: _ => Panic "nil pointer dereference"
  end.

(** The closure [setup] of [NewDomainDb].  The entries of the map [dbs]
    are visited in the order of [map_to_list] in each of its loops (Go
    leaves the order open). *)
Definition setup (env : Env) (alreadyHadCheckpoints : bool)
    (checkpoints : AllCheckpoints) (s : DomainDb) (st : St)
    : Outcome (option error * DomainDb * St * list Goroutine) :=
  let names := (map_to_list (dbs s)).*1 in
  obind (readDatabases env alreadyHadCheckpoints names s st []) (fun '(exit, s, st, toClose) =>
    let body : Outcome (option error * DomainDb * St * list Goroutine) :=
      match exit with
      | Returned err => Ret (err, s, st, [])
      | Completed =>
          if negb (isRunning s) then Ret (None, s, st, [])
          else
            (* Populate checkpoints as needed. *)
            let checkpoints := populateCheckpoints names s checkpoints in
            (* Save checkpoints. *)
            match WriteCheckpoints checkpoints st with
            | (Some err, st) =>
                Ret (Some (Wrapped "failed to save checkpoints after initial load: %w" err), s, st, [])
            | (None, st) =>
                if negb (isRunning s) then Ret (None, s, st, [])
                else
                  Ret (None, s, st,
                       CheckpointWriter checkpoints ::
                       (if negb (disableDl s) then updaters names s checkpoints else []))
            end
      end in
    obind body (fun r => obind (closeAll toClose) (fun _ => Ret r))).

Record NewResult : Type := {
  instance : option DomainDb;
  err : option error;
  storage : St;
  spawned : list Goroutine
}.

(** [NewDomainDb].  In the background mode [setup] is left to a
    goroutine and the instance is returned as constructed. *)
Definition NewDomainDb (options : Options) (env : Env) (st : St) : Outcome NewResult :=
  (* Create source maps. *)
  let dbs : gmap string dbSrcMap :=
    (fun src => {| db.Has := false; db.Src := src; db.Domains := ∅;
                   db.LastUpdatedUnix := 0 |}) <$> Sources options in
  let s := {| disableDl := DisableDownload options; updates := [];
              dbs := dbs; isRunning := true |} in
  let '(read, st) := ReadCheckpoints st in
  let start : error + (bool * AllCheckpoints) :=
    match read with
    | Ok checkpoints => inr (true, checkpoints)
    | Err err =>
        if errors_Is_ENOENT err
        then inr (false, {| Checkpoints := ∅ |})
        else inl (Wrapped "failed to load checkpoints during initialization: %w" err)
    end in
  match start with
  | inl err => Ret {| instance := None; err := Some err; storage := st; spawned := [] |}
  | inr (alreadyHadCheckpoints, checkpoints) =>
      if LoadDatabasesInBackground options
      then Ret {| instance := Some s; err := None; storage := st;
                  spawned := [BackgroundSetup] |}
      else
        obind (setup env alreadyHadCheckpoints checkpoints s st) (fun '(err, s', st, gs) =>
          match err with
          | Some _ => Ret {| instance := None; err := None; storage := st; spawned := gs |}
          | None => Ret {| instance := Some s'; err := None; storage := st; spawned := gs |}
          end)
  end.

End Engine.

(** ** A sample of the outside libraries

    An [External] to run the embedding on concrete inputs.  Its IDNA
    functions answer for names of ASCII letters, digits, hyphens and dots,
    where the profile lowercases and checks the labels; its JSON functions
    answer for documents whose names need no escaping.  Elsewhere the sample
    reports an error. *)
Module Sample.
Import Bytes.

Definition plainByte (c : ascii) : bool :=
  let n := code c in
  ((N.leb 97 n && N.leb n 122) || (N.leb 65 n && N.leb n 90) || (N.leb 48 n && N.leb n 57)
   || N.eqb n 45)%N.

Definition labelOk (lbl : string) : bool :=
  forallb plainByte (to_list lbl)
  && negb (String.eqb lbl EmptyString)
  && N.leb (len lbl) 63
  && negb (Strings.HasPrefix lbl "-")
  && negb (Strings.HasSuffix lbl "-")
  && negb (String.eqb (take 2 (drop 2 lbl)) "--").

Definition ToASCII (s : string) : Result string :=
  if forallb labelOk (Strings.Split s ".") && N.leb (len s) 253
  then Ok (Strings.mapBytes Strings.lowerByte s)
  else Err (ErrorString "idna: disallowed rune or invalid label").

Definition Punycode_ToASCII (s : string) : Result string :=
  if Strings.isASCII s then Ok s
  else Err (ErrorString "idna: not covered by the sample").

Definition quote : string := String (byte 34) EmptyString.
Definition newline : string := String (byte 10) EmptyString.

Definition nameOk (name : string) : bool :=
  forallb (fun c => plainByte c || Ascii.eqb c "." || Ascii.eqb c "_") (to_list name).

Definition encodeEntry (e : string * Checkpoint) : string :=
  quote +:+ e.1 +:+ quote +:+ ":{" +:+ quote +:+ "LastUpdatedUnix" +:+ quote +:+ ":"
  +:+ pretty (LastUpdatedUnix e.2) +:+ "}".

Fixpoint joinWith (sep : string) (l : list string) : string :=
  match l with
  | [] => EmptyString
  | [x] => x
  | x :: rest => x +:+ sep +:+ joinWith sep rest
  end.

Definition keyLe (a b : string * Checkpoint) : Prop := String.leb a.1 b.1 = true.

#[local] Instance keyLe_dec a b : Decision (keyLe a b).
Proof. unfold keyLe. apply _. Defined.

(** The keys of a map are written in sorted order. *)
Definition Encode (doc : AllCheckpoints) : Result string :=
  let entries := merge_sort keyLe (map_to_list (Checkpoints doc)) in
  if forallb (fun e => nameOk (fst e)) entries
  then Ok ("{" +:+ quote +:+ "Checkpoints" +:+ quote +:+ ":{"
           +:+ joinWith "," (List.map encodeEntry entries) +:+ "}}" +:+ newline)
  else Err (ErrorString "json: not covered by the sample").

(** [s] without the prefix [p], when it starts with it. *)
Definition expect (p s : string) : option string :=
  if String.prefix p s then Some (drop (String.length p) s) else None.

(** The bytes up to the first double quote, and what follows it. *)
Fixpoint untilQuote (s : string) : option (string * string) :=
  match s with
  | EmptyString => None
  | String c t =>
      if Ascii.eqb c (byte 34) then Some (EmptyString, t)
      else match untilQuote t with
           | Some (name, rest) => Some (String c name, rest)
           | None => None
           end
  end.

Definition isDigit (c : ascii) : bool := (N.leb 48 (code c) && N.leb (code c) 57)%N.

Fixpoint digits (s : string) (acc : Z) (seen : bool) : option (Z * string) :=
  match s with
  | String c t =>
      if isDigit c then digits t (10 * acc + Z.of_N (code c) - 48)%Z true
      else if seen then Some (acc, s) else None
  | EmptyString => if seen then Some (acc, s) else None
  end.

Definition number (s : string) : option (Z * string) :=
  match s with
  | String "-" t =>
      match digits t 0%Z false with
      | Some (n, rest) => Some ((- n)%Z, rest)
      | None => None
      end
  | _ => digits s 0%Z false
  end.

(** One entry, name first. *)
Definition entry (s : string) : option (string * Checkpoint * string) :=
  s ← expect quote s;
  '(name, s) ← untilQuote s;
  s ← expect (":{" +:+ quote +:+ "LastUpdatedUnix" +:+ quote +:+ ":") s;
  '(n, s) ← number s;
  s ← expect "}" s;
  Some (name, {| LastUpdatedUnix := n |}, s).

Fixpoint entries (fuel : nat) (s : string) (acc : gmap string Checkpoint)
    : option (gmap string Checkpoint) :=
  match fuel with
  | O => None
  | S fuel' =>
      match entry s with
      | None => None
      | Some (name, chk, rest) =>
          let acc := <[name := chk]> acc in
          match rest with
          | String "," rest' => entries fuel' rest' acc
          | String "}" _ => Some acc
          | _ => None
          end
      end
  end.

(** Reads the first value of the stream and leaves what follows it. *)
Definition Decode (s : string) : Result AllCheckpoints :=
  let parsed : option (gmap string Checkpoint) :=
    s ← expect ("{" +:+ quote +:+ "Checkpoints" +:+ quote +:+ ":{") s;
    match s with
    | String "}" (String "}" _) => Some ∅
    | _ =>
        m ← entries (String.length s) s ∅;
        Some m
    end in
  match parsed with
  | Some m => Ok {| Checkpoints := m |}
  | None => Err (ErrorString "json: not covered by the sample")
  end.

Definition ext : External := {|
  idna_ToASCII := ToASCII;
  idna_Punycode_ToASCII := Punycode_ToASCII;
  unicode_ToLower := Strings.mapBytes Strings.lowerByte;
  json_Encode := Encode;
  json_Decode := Decode
|}.

End Sample.

(** ** Specification-side notions used in the statements *)

Section Words.
Variable normalizeDomainName : string -> Result string.

(** A line the loader skips: empty, or a comment. *)
Definition skipped (line : string) : bool :=
  String.eqb line EmptyString || N.eqb (Utf8.byteAt line 0) 35.

(** A line that counts as a normalization failure. *)
Definition badLine (line : string) : bool :=
  negb (skipped line) &&
  match normalizeDomainName line with Err _ => true | Ok _ => false end.

(** The lines looked at when at most [allowed] more failures are
    tolerated: everything up to and including the line of the last
    failure allowed. *)
Fixpoint linesSeen (lines : list string) (allowed : nat) : list string :=
  match lines with
  | [] => []
  | line :: rest =>
      match allowed with
      | O => []
      | S allowed' => line :: linesSeen rest (if badLine line then allowed' else allowed)
      end
  end.

(** The failures of a list of lines, in order, as the loader records them. *)
Fixpoint failuresOf (lines : list string) : list error :=
  match lines with
  | [] => []
  | line :: rest =>
      if skipped line then failuresOf rest
      else match normalizeDomainName line with
           | Err err => Wrapped "failed to normalize domain name %s: %w" err :: failuresOf rest
           | Ok _ => failuresOf rest
           end
  end.

(** The normal forms of the lines that parse, in order. *)
Fixpoint parsedOf (lines : list string) : list string :=
  match lines with
  | [] => []
  | line :: rest =>
      if skipped line then parsedOf rest
      else match normalizeDomainName line with
           | Err _ => parsedOf rest
           | Ok normalized => normalized :: parsedOf rest
           end
  end.

End Words.

(** A URL counts as failed when the HTTP call errors, when the status is not
    200, or when copying the body errors. *)
Definition urlFailed (env : Env) (srcUrl : string) : bool :=
  match http env srcUrl with
  | HttpError _ => true
  | HttpResponse StatusCode Body =>
      negb (Z.eqb StatusCode 200) || match final Body with Some _ => true | None => false end
  end.

(** [n] newline bytes: what the pipe of [openDataSource] holds when none of
    [n] URLs delivered a body. *)
Fixpoint newlines (n : nat) : string :=
  match n with
  | O => EmptyString
  | S k => String (Bytes.byte 10) (newlines k)
  end.

(** The entry of [name] exists and its domain set is empty. *)
Definition unloaded (s : DomainDb) (name : string) : Prop :=
  exists data, dbs s !! name = Some data /\ db.Domains data = ∅.

(** ** Concrete inputs *)

Module Scenario.

Definition driver : FsStorageDriver := {| dataDir := "/data" |}.

Definition noFaults (m : gmap string string) : Fs :=
  {| files := m; open_fault := fun _ => None; write_fault := fun _ => None; trace := [] |}.

Definition emptyDisk : Fs := noFaults ∅.

Definition listUrl : string := "https://lists.example/disposable.txt".

Definition source : DataSource :=
  {| Urls := [listUrl]; Get := None; RefreshInterval := 3600 |}.

(** Every URL answers 200 with one domain. *)
Definition online : Env :=
  {| http := fun _ => HttpResponse 200 {| data := "a.com" +:+ Sample.newline; final := None |};
     now := 1700000000;
     pulled := fun d _ => d |}.

(** Every HTTP call fails. *)
Definition offline : Env :=
  {| http := fun _ => HttpError (ErrorString "dial tcp: i/o timeout");
     now := 1700000000;
     pulled := fun d _ => d |}.

Definition options (disableDownload background : bool) : Options :=
  {| DisableDownload := disableDownload;
     LoadDatabasesInBackground := background;
     Sources := {[ "disposable" := source ]} |}.

Definition emptyDocument : AllCheckpoints := {| Checkpoints := ∅ |}.

Definition oneCheckpoint : AllCheckpoints :=
  {| Checkpoints := {[ "disposable" := {| LastUpdatedUnix := 1700000000 |} ]} |}.

(** The text [json.Encoder] writes for the empty document. *)
Definition emptyDocumentText : string :=
  "{" +:+ Sample.quote +:+ "Checkpoints" +:+ Sample.quote +:+ ":{}}" +:+ Sample.newline.

(** A data directory with a checkpoints file and no database file. *)
Definition checkpointsOnly : Fs :=
  noFaults {[ "/data/checkpoints.json" := emptyDocumentText ]}.

(** An engine whose database holds one domain, loaded earlier. *)
Definition loaded (stored : string) : DomainDb :=
  {| disableDl := false; updates := []; isRunning := true;
     dbs := {[ "disposable" :=
                 {| db.Has := false; db.Src := source;
                    db.Domains := {[ stored ]}; db.LastUpdatedUnix := 0 |} ]} |}.

Definition cachedDisk : Fs :=
  noFaults {[ "/data/disposable.txt" := "old.com" +:+ Sample.newline ]}.

Definition normalizer : string -> Result string := NormalizeDomainName Sample.ext.

Definition storage : StorageDriver Fs := FsStorageDriver_StorageDriver Sample.ext driver.



End Scenario.

(** ** Further notions *)

(** An ASCII control byte or DEL. *)
Definition controlByte (c : ascii) : bool :=
  N.leb (Bytes.code c) 31 || N.eqb (Bytes.code c) 127.

(** [s] without its control bytes. *)
Fixpoint dropControls (s : string) : string :=
  match s with
  | EmptyString => EmptyString
  | String c t => if controlByte c then dropControls t else String c (dropControls t)
  end.

(** [n] times the byte [c]. *)
Fixpoint repeatByte (c : ascii) (n : nat) : string :=
  match n with
  | O => EmptyString
  | S k => String c (repeatByte c k)
  end.

(** A lowercase letter or a digit; the same or a hyphen. *)
Definition alnumByte (c : ascii) : bool := normalize.isAlnum (Bytes.code c).

Definition ldhByte (c : ascii) : bool := alnumByte c || Ascii.eqb c "-".

(** The last byte of a string. *)
Fixpoint lastByte (s : string) : option ascii :=
  match s with
  | EmptyString => None
  | String c EmptyString => Some c
  | String _ t => lastByte t
  end.

Definition firstByte (s : string) : option ascii :=
  match s with
  | EmptyString => None
  | String c _ => Some c
  end.

(** A label of a canonical name: 1 to 63 bytes, all of them lowercase
    letters, digits or hyphens, the last one not a hyphen, and the first one
    not a hyphen unless the label starts with [xn--]. *)
Definition canonicalLabel (lbl : string) : Prop :=
  1 <= String.length lbl <= 63
  /\ forallb ldhByte (Bytes.to_list lbl) = true
  /\ (exists c, lastByte lbl = Some c /\ alnumByte c = true)
  /\ ((exists c, firstByte lbl = Some c /\ alnumByte c = true)
      \/ String.prefix "xn--" lbl = true).

(** The lines, each followed by a newline. *)
Fixpoint unlines (lines : list string) : string :=
  match lines with
  | [] => EmptyString
  | line :: rest => line +:+ String (Bytes.byte 10) (unlines rest)
  end.

(** A line a scanner gives back as it was written: no newline in it, no
    carriage return at its end, short of the buffer. *)
Definition plainLine (line : string) : Prop :=
  Strings.Contains line (String (Bytes.byte 10) EmptyString) = false
  /\ Strings.HasSuffix line (String (Bytes.byte 13) EmptyString) = false
  /\ N.ltb (Bytes.len line) MaxScanTokenSize = true.

(** The value of a hexadecimal digit as [url_QueryEscape] writes them. *)
Definition hexValue (c : ascii) : option N :=
  let n := Bytes.code c in
  if (N.leb 48 n && N.leb n 57)%N then Some (n - 48)%N
  else if (N.leb 65 n && N.leb n 70)%N then Some (n - 55)%N
  else None.

(** Reading an escaped name back: [+] is a space, [%XX] the byte [XX]. *)
Fixpoint queryUnescape (s : string) : string :=
  match s with
  | EmptyString => EmptyString
  | String c t =>
      if Ascii.eqb c "+" then String " " (queryUnescape t)
      else if Ascii.eqb c "%" then
        match t with
        | String h (String l t') =>
            match hexValue h, hexValue l with
            | Some a, Some b => String (Bytes.byte (16 * a + b)) (queryUnescape t')
            | _, _ => EmptyString
            end
        | _ => EmptyString
        end
      else String c (queryUnescape t)
  end.

(** A byte [url_QueryEscape] may write: a letter, a digit, or one of
    [- _ . ~ + %]. *)
Definition escapedByte (c : ascii) : bool :=
  negb (shouldEscape (Bytes.code c)) || Ascii.eqb c "+" || Ascii.eqb c "%".

(** The last time sent for [name] in a list of messages, if any. *)
Fixpoint lastSent (name : string) (messages : list dbUpdate) : option Z :=
  match messages with
  | [] => None
  | update :: rest =>
      match lastSent name rest with
      | Some t => Some t
      | None => if String.eqb (Name update) name then Some (Ts update) else None
      end
  end.

(** Two engines with the same configuration: the same flags, the same
    names, and for each name the same source. *)
Definition sameConfiguration (s s' : DomainDb) : Prop :=
  isRunning s' = isRunning s
  /\ disableDl s' = disableDl s
  /\ forall name,
      match dbs s !! name, dbs s' !! name with
      | Some d, Some d' => db.Src d' = db.Src d /\ db.Has d' = db.Has d
      | None, None => True
      | _, _ => False
      end.

(** The entries of all names but [name] are the same. *)
Definition sameElsewhere (name : string) (s s' : DomainDb) : Prop :=
  forall other, other <> name -> dbs s' !! other = dbs s !! other.

Section CheckpointWriter.
Context {St : Type} {driver : StorageDriver St}.

(** The body of the goroutine of [setup] that saves checkpoint updates, for
    one message received: the entry of the name is set to the time of the
    message and the whole document is written.  The error of the write is
    logged, here returned. *)
Definition saveUpdate (checkpoints : AllCheckpoints) (update : dbUpdate) (st : St)
    : AllCheckpoints * option error * St :=
  let chkPnt :=
    match Checkpoints checkpoints !! Name update with
    | Some chkPnt => {| LastUpdatedUnix := Ts update |}
    | None => {| LastUpdatedUnix := Ts update |}
    end in
  let checkpoints := {| Checkpoints := <[Name update := chkPnt]> (Checkpoints checkpoints) |} in
  let '(err, st) := WriteCheckpoints checkpoints st in
  (checkpoints, err, st).

(** The loop [for update := range s.updates] over the messages sent until
    the channel is closed; the errors logged are collected. *)
Fixpoint checkpointWriter (messages : list dbUpdate) (checkpoints : AllCheckpoints) (st : St)
    : AllCheckpoints * list error * St :=
  match messages with
  | [] => (checkpoints, [], st)
  | update :: rest =>
      let '(checkpoints, err, st) := saveUpdate checkpoints update st in
      let '(checkpoints, errs, st) := checkpointWriter rest checkpoints st in
      (checkpoints, match err with Some e => e :: errs | None => errs end, st)
  end.

End CheckpointWriter.

(** * Properties *)

(** ** Normalizer *)

Lemma trimLeadingDots_dot (s : string) :
  normalize.trimLeadingDots (String "." s) = normalize.trimLeadingDots s.
Proof. reflexivity. Qed.

(** C1: the normalizer does not reject a leading dot or a second trailing dot;
    it strips them and goes on, so that [.example.com] and [example.com..] get
    whatever [example.com] gets, and with a profile that accepts
    [example.com] both are accepted. *)
Theorem NormalizeDomain_strips_extra_dots :
  (forall ext : External,
      let n := normalize.NewDomainNormalizer ext in
      normalize.NormalizeDomain ext n ".example.com"
      = normalize.NormalizeDomain ext n "example.com"
      /\ normalize.NormalizeDomain ext n "example.com.."
         = normalize.NormalizeDomain ext n "example.com")
  /\ normalize.NormalizeDomain Sample.ext (normalize.NewDomainNormalizer Sample.ext)
       ".example.com" = Ok "example.com"
  /\ normalize.NormalizeDomain Sample.ext (normalize.NewDomainNormalizer Sample.ext)
       "example.com.." = Ok "example.com".
Proof.
  split; [intros ext n; split; reflexivity |].
  split; vm_compute; reflexivity.
Qed.

(** ** Storage driver: checkpoints *)

(** Writing the checkpoints over an existing file replaces its first bytes
    and keeps the rest: the file is opened without [O_TRUNC]. *)
Lemma WriteCheckpoints_overwrites_in_place (ext : External) (s : FsStorageDriver)
    (doc : AllCheckpoints) (fs : Fs) (b old : string) :
  let path := filepath_Join (dataDir s) checkpointsFilename in
  json_Encode ext doc = Ok b ->
  open_fault fs path = None ->
  write_fault fs path = None ->
  files fs !! path = Some old ->
  exists fs',
    FsStorageDriver_WriteCheckpoints ext s doc fs = (None, fs')
    /\ files fs' !! path = Some (b +:+ Bytes.drop (String.length b) old).
Proof.
  intros path Henc Hopen Hwrite Hold.
  unfold FsStorageDriver_WriteCheckpoints, os_OpenFile, file_Write.
  fold path. cbn [open_fault record files write_fault fpath foffset setFiles].
  rewrite Hopen, Hold.
  replace (Z.land (Z.lor O_CREAT O_WRONLY) O_TRUNC =? 0)%Z with true by reflexivity.
  rewrite Henc. cbn [open_fault record files write_fault fpath foffset setFiles].
  rewrite Hwrite, Hold. cbn [default from_option].
  eexists. split; [reflexivity |].
  cbn [files setFiles]. rewrite lookup_insert_eq. reflexivity.
Qed.

(** C2: after a longer document was written, writing the empty document
    succeeds and leaves the file holding the new text followed by the tail of
    the old one, which is not the serialization of the document written;
    reading the checkpoints back gives the document all the same. *)
Theorem WriteCheckpoints_keeps_stale_tail :
  let fs1 := snd (FsStorageDriver_WriteCheckpoints Sample.ext Scenario.driver
                    Scenario.oneCheckpoint Scenario.emptyDisk) in
  let r := FsStorageDriver_WriteCheckpoints Sample.ext Scenario.driver
             Scenario.emptyDocument fs1 in
  fst r = None
  /\ json_Encode Sample.ext Scenario.emptyDocument = Ok Scenario.emptyDocumentText
  /\ files (snd r) !! "/data/checkpoints.json"
     = Some (Scenario.emptyDocumentText
             +:+ "sposable" +:+ Sample.quote +:+ ":{" +:+ Sample.quote +:+ "LastUpdatedUnix"
             +:+ Sample.quote +:+ ":1700000000}}}" +:+ Sample.newline)
  /\ files (snd r) !! "/data/checkpoints.json" <> Some Scenario.emptyDocumentText
  /\ fst (FsStorageDriver_ReadCheckpoints Sample.ext Scenario.driver (snd r))
     = Ok Scenario.emptyDocument.
Proof.
  cbv zeta.
  split; [vm_compute; reflexivity |].
  split; [vm_compute; reflexivity |].
  split; [vm_compute; reflexivity |].
  split; [vm_compute; discriminate |].
  vm_compute; reflexivity.
Qed.

(** ** Construction *)

Section Construction.
Variable normalizeDomainName : string -> Result string.
Context {St : Type} {driver : StorageDriver St}.

(** The only error a construction reports is a failure to read the
    checkpoints that is not a missing file. *)
Lemma NewDomainDb_error_is_checkpoints (options : Options) (env : Env) (st : St)
    (r : NewResult) (e : error) :
  NewDomainDb normalizeDomainName options env st = Ret r ->
  err r = Some e ->
  exists e0, fst (ReadCheckpoints st) = Err e0 /\ errors_Is_ENOENT e0 = false.
Proof.
  unfold NewDomainDb. destruct (ReadCheckpoints st) as [[cps | e0] st'] eqn:Hread.
  - destruct (LoadDatabasesInBackground options).
    + intros [= <-]. discriminate.
    + destruct (setup _ _ _ _ _ _) as [[[[x s'] st''] gs] | why]; cbn; [| discriminate].
      destruct x; intros [= <-]; discriminate.
  - destruct (errors_Is_ENOENT e0) eqn:His.
    + destruct (LoadDatabasesInBackground options).
      * intros [= <-]. discriminate.
      * destruct (setup _ _ _ _ _ _) as [[[[x s'] st''] gs] | why]; cbn; [| discriminate].
        destruct x; intros [= <-]; discriminate.
    + intros [= <-] _. exists e0. split; [reflexivity | assumption].
Qed.

(** Closing the collected readers panics as soon as one of them is nil. *)
Lemma closeAll_nil (toClose : list (option Stream)) :
  In None toClose -> closeAll toClose = Panic "nil pointer dereference".
Proof.
  induction toClose as [| [r |] rest IH]; cbn.
  - intros [].
  - intros [H | H]; [discriminate | auto].
  - reflexivity.
Qed.

Lemma closeAll_ok (toClose : list (option Stream)) :
  ~ In None toClose -> closeAll toClose = Ret tt.
Proof.
  induction toClose as [| [r |] rest IH]; cbn.
  - reflexivity.
  - intros H. apply IH. intros Hin. apply H. right. exact Hin.
  - intros H. exfalso. apply H. left. reflexivity.
Qed.

(** The first loop of [setup] only adds to the readers collected. *)
Lemma readDatabases_collects (env : Env) (had : bool) (names : list string) :
  forall (s : DomainDb) (st : St) (toClose : list (option Stream))
         (exit : LoopExit) (s' : DomainDb) (st' : St) (toClose' : list (option Stream)),
    readDatabases normalizeDomainName env had names s st toClose
    = Ret (exit, s', st', toClose') ->
    exists more, toClose' = toClose ++ more.
Proof.
  induction names as [| name rest IH]; intros s st toClose exit s' st' toClose'.
  - cbn. intros [= <- <- <- <-]. exists []. rewrite app_nil_r. reflexivity.
  - cbn [readDatabases].
    destruct (negb (isRunning s)).
    { intros [= <- <- <- <-]. exists []. rewrite app_nil_r. reflexivity. }
    set (cached := if had then _ else _).
    assert (Hcached : exists more, cached.2 = toClose ++ more).
    { subst cached. destruct had.
      - destruct (ReadDatabase name st) as [[reader e] st1].
        destruct e as [e |].
        + destruct (negb (errors_Is_ENOENT e)); cbn.
          * exists []. rewrite app_nil_r. reflexivity.
          * exists [reader]. reflexivity.
        + cbn. exists [reader]. reflexivity.
      - cbn. exists []. rewrite app_nil_r. reflexivity. }
    destruct cached as [[c st1] toClose1]. cbn [fst snd] in Hcached.
    destruct Hcached as (more & ->).
    destruct c as [e | [reader |]].
    + intros [= <- <- <- <-]. exists more. reflexivity.
    + destruct (loadDomainsFromReader normalizeDomainName s reader name)
        as [[e s1] | why]; cbn [obind]; [| discriminate].
      destruct e as [e |].
      * intros [= <- <- <- <-]. exists more. reflexivity.
      * intros Hrest. apply IH in Hrest. destruct Hrest as (more' & ->).
        exists (more ++ more'). rewrite app_assoc. reflexivity.
    + destruct (disableDl s).
      * intros [= <- <- <- <-]. exists more. reflexivity.
      * destruct (DownloadAndLoadDatabase normalizeDomainName env s st1 name)
          as [[[e s1] st2] | why]; cbn [obind]; [| discriminate].
        destruct e as [e |].
        -- intros [= <- <- <- <-]. exists more. reflexivity.
        -- intros Hrest. apply IH in Hrest. destruct Hrest as (more' & ->).
           exists (more ++ more'). rewrite app_assoc. reflexivity.
Qed.

(** When the checkpoints were found and [ReadDatabase] answers the first
    database visited with a nil reader and a missing-file error, [setup]
    panics, whatever the download does. *)
Lemma setup_panics_on_nil_reader (env : Env) (checkpoints : AllCheckpoints)
    (s : DomainDb) (st st1 : St) (name : string) (rest : list string) (e : error) :
  (map_to_list (dbs s)).*1 = name :: rest ->
  isRunning s = true ->
  ReadDatabase name st = ((None, Some e), st1) ->
  errors_Is_ENOENT e = true ->
  exists why, setup normalizeDomainName env true checkpoints s st = Panic why.
Proof.
  intros Hnames Hrun Hread Hmissing.
  unfold setup. rewrite Hnames.
  destruct (readDatabases normalizeDomainName env true (name :: rest) s st [])
    as [[[[exit s'] st'] toClose'] | why] eqn:Hloop; cbn [obind]; [| eauto].
  assert (Hin : In None toClose').
  { cbn [readDatabases] in Hloop. rewrite Hrun, Hread, Hmissing in Hloop.
    cbn [negb app] in Hloop.
    destruct (disableDl s).
    - injection Hloop as <- <- <- <-. left. reflexivity.
    - destruct (DownloadAndLoadDatabase normalizeDomainName env s st1 name)
        as [[[e1 s1] st2] | why]; cbn [obind] in Hloop; [| discriminate].
      destruct e1 as [e1 |].
      + injection Hloop as <- <- <- <-. left. reflexivity.
      + apply readDatabases_collects in Hloop. destruct Hloop as (more & ->).
        left. reflexivity. }
  rewrite (closeAll_nil toClose' Hin).
  match goal with |- exists why, obind ?body _ = _ => destruct body as [x | why] end;
    cbn [obind]; eauto.
Qed.

(** A synchronous construction whose [setup] returns an error returns a nil
    instance and a nil error. *)
Lemma NewDomainDb_setup_error_is_dropped (options : Options) (env : Env) (st st' st'' : St)
    (checkpoints : AllCheckpoints) (e : error) (s' : DomainDb) (gs : list Goroutine) :
  LoadDatabasesInBackground options = false ->
  ReadCheckpoints st = (Ok checkpoints, st') ->
  setup normalizeDomainName env true checkpoints
    {| disableDl := DisableDownload options; updates := [];
       dbs := (fun src => {| db.Has := false; db.Src := src; db.Domains := ∅;
                             db.LastUpdatedUnix := 0 |}) <$> Sources options;
       isRunning := true |} st'
  = Ret (Some e, s', st'', gs) ->
  NewDomainDb normalizeDomainName options env st
  = Ret {| instance := None; err := None; storage := st''; spawned := gs |}.
Proof.
  intros Hsync Hread Hsetup. unfold NewDomainDb.
  rewrite Hread, Hsync, Hsetup. reflexivity.
Qed.

(** A refresh that cannot open its source leaves the engine as it was. *)
Lemma DownloadAndLoadDatabase_no_source_keeps (env : Env) (s s' : DomainDb) (st st' : St)
    (name : string) (data : dbSrcMap) (e : error) (e' : option error) :
  dbs s !! name = Some data ->
  (openDataSource env (db.Src data)).2 = Some e ->
  DownloadAndLoadDatabase normalizeDomainName env s st name = Ret (e', s', st') ->
  s' = s /\ st' = st /\ is_Some e'.
Proof.
  intros Hdata Hopen. unfold DownloadAndLoadDatabase. rewrite Hdata.
  destruct (openDataSource env (db.Src data)) as [reader oe]. cbn in Hopen. subst oe.
  destruct reader; intros [= <- <- <-]; repeat split; eexists; reflexivity.
Qed.

End Construction.

(** C3: a synchronous construction with downloads disabled and nothing cached
    fails inside [setup], and [NewDomainDb] returns a nil instance together
    with a nil error. *)
Theorem NewDomainDb_swallows_setup_error :
  match NewDomainDb Scenario.normalizer (driver := Scenario.storage)
          (Scenario.options true false) Scenario.online Scenario.emptyDisk with
  | Ret r => instance r = None /\ err r = None
  | Panic _ => False
  end.
Proof. vm_compute. split; reflexivity. Qed.

(** C4: a synchronous construction that finds the checkpoints file but no
    database file, with the download enabled and succeeding, panics: the nil
    reader [ReadDatabase] returned with the missing-file error is collected
    and closed when [setup] returns. *)
Theorem NewDomainDb_panics_on_missing_cache :
  fst (FsStorageDriver_ReadCheckpoints Sample.ext Scenario.driver Scenario.checkpointsOnly)
  = Ok Scenario.emptyDocument
  /\ (exists e, fst (FsStorageDriver_ReadDatabase Scenario.driver "disposable"
                       Scenario.checkpointsOnly) = (None, Some e)
                /\ errors_Is_ENOENT e = true)
  /\ urlFailed Scenario.online Scenario.listUrl = false
  /\ NewDomainDb Scenario.normalizer (driver := Scenario.storage)
       (Scenario.options false false) Scenario.online Scenario.checkpointsOnly
     = Panic "nil pointer dereference".
Proof.
  split; [vm_compute; reflexivity |].
  split; [eexists; split; vm_compute; reflexivity |].
  split; vm_compute; reflexivity.
Qed.

(** ** Refresh *)

(** C5: with a loaded set holding [old.com], a refresh whose every URL fails
    returns no error, swaps in the empty set, and [old.com] is no longer
    found. *)
Theorem DownloadAndLoadDatabase_all_urls_failed_swaps :
  let before := Scenario.loaded "old.com" in
  DoesDbHaveDomain Scenario.normalizer before "disposable" "old.com" = (true, None)
  /\ urlFailed Scenario.offline Scenario.listUrl = true
  /\ match DownloadAndLoadDatabase Scenario.normalizer (driver := Scenario.storage)
             Scenario.offline before Scenario.cachedDisk "disposable" with
     | Ret (err, after, st) =>
         err = None
         /\ unloaded after "disposable"
         /\ DoesDbHaveDomain Scenario.normalizer after "disposable" "old.com" = (false, None)
         /\ files st !! "/data/disposable.txt" = Some Sample.newline
     | Panic _ => False
     end.
Proof.
  cbv zeta.
  split; [vm_compute; reflexivity |].
  split; [vm_compute; reflexivity |].
  destruct (DownloadAndLoadDatabase _ _ _ _ _) as [[[e after] st] | why] eqn:Hrun;
    vm_compute in Hrun; [| discriminate].
  injection Hrun as <- <- <-.
  split; [reflexivity |].
  split; [eexists; split; vm_compute; reflexivity |].
  split; vm_compute; reflexivity.
Qed.

(** ** Loader *)

Section Loader.
Variable nz : string -> Result string.


(** One line: what the body of the loop adds to the state. *)
Lemma loadLine_spec (line : string) (st : LoadState) :
  domains (loadLine nz line st) = list_to_set (parsedOf nz [line]) ∪ domains st
  /\ failures (loadLine nz line st) = failures st ++ failuresOf nz [line]
  /\ goodLines (loadLine nz line st) = goodLines st + length (parsedOf nz [line])
  /\ length (failures (loadLine nz line st))
     = length (failures st) + (if badLine nz line then 1 else 0).
Proof.
  unfold loadLine, badLine; cbn [parsedOf failuresOf].
  fold (skipped line).
  destruct (skipped line); cbn.
  - rewrite app_nil_r. repeat split; try lia. set_solver.
  - destruct (nz line); cbn.
    + rewrite app_nil_r. repeat split; try lia. set_solver.
    + rewrite length_app. cbn. repeat split; try lia. set_solver.
Qed.

(** The loop computes the failures, the good lines and the set of the
    lines seen. *)
Lemma scanLoop_spec (lines : list string) (st : LoadState) :
  length (failures st) <= maxFailures ->
  let seen := linesSeen nz lines (maxFailures - length (failures st)) in
  domains (scanLoop nz lines st).1 = list_to_set (parsedOf nz seen) ∪ domains st
  /\ failures (scanLoop nz lines st).1 = failures st ++ failuresOf nz seen
  /\ goodLines (scanLoop nz lines st).1 = goodLines st + length (parsedOf nz seen).
Proof.
  revert st. induction lines as [| line rest IH]; intros st Hle seen.
  - subst seen. cbn. rewrite app_nil_r. repeat split; try lia. set_solver.
  - cbn [scanLoop].
    cbn [countScan failures].
    destruct (Nat.ltb (length (failures st)) maxFailures) eqn:Hlt.
    + apply Nat.ltb_lt in Hlt.
      destruct (loadLine_spec line (countScan st)) as (Hd & Hf & Hg & Hn).
      cbn [countScan domains failures goodLines] in Hd, Hf, Hg, Hn.
      assert (Hle' : length (failures (loadLine nz line (countScan st))) <= maxFailures).
      { rewrite Hn. destruct (badLine nz line); lia. }
      destruct (IH _ Hle') as (Hd' & Hf' & Hg').
      assert (Hseen : seen = line :: linesSeen nz rest
                        (maxFailures - length (failures (loadLine nz line (countScan st))))).
      { subst seen. destruct (maxFailures - length (failures st)) as [| k] eqn:Hk; [lia |].
        cbn [linesSeen]. f_equal. f_equal.
        rewrite Hn. destruct (badLine nz line); lia. }
      remember (linesSeen nz rest
                  (maxFailures - length (failures (loadLine nz line (countScan st)))))
        as tail eqn:Htail.
      clear Htail.
      rewrite Hd', Hf', Hg', Hd, Hf, Hg, Hseen.
      assert (Hp : parsedOf nz (line :: tail) = parsedOf nz [line] ++ parsedOf nz tail).
      { cbn. destruct (skipped line); [reflexivity |].
        destruct (nz line); reflexivity. }
      assert (Hfo : failuresOf nz (line :: tail) = failuresOf nz [line] ++ failuresOf nz tail).
      { cbn. destruct (skipped line); [reflexivity |].
        destruct (nz line); reflexivity. }
      rewrite Hp, Hfo, length_app, list_to_set_app_L, <- app_assoc.
      repeat split; try lia. set_solver.
    + apply Nat.ltb_ge in Hlt.
      assert (Hz : maxFailures - length (failures st) = 0) by lia.
      subst seen. rewrite Hz. cbn. rewrite app_nil_r.
      repeat split; try lia. set_solver.
Qed.




(** A load that fails leaves the engine as it was. *)
Lemma loadDomainsFromReader_error_keeps (s s' : DomainDb) (reader : Stream)
    (name : string) (e : error) :
  loadDomainsFromReader nz s reader name = Ret (Some e, s') -> s' = s.
Proof.
  unfold loadDomainsFromReader.
  destruct (runScan nz reader) as [st b].
  destruct (Nat.ltb (goodLines st) (length (failures st))).
  - intros [= _ <-]. reflexivity.
  - destruct (dbs s !! name); [intros [=] | discriminate].
Qed.


End Loader.

(** ** Storage driver: database files *)

Lemma string_append_length (a b : string) :
  String.length (a +:+ b) = String.length a + String.length b.
Proof.
  induction a as [| c a IH]; [reflexivity |].
  change (S (String.length (a +:+ b)) = S (String.length a + String.length b)).
  f_equal. exact IH.
Qed.

Lemma string_append_empty (a : string) : a +:+ EmptyString = a.
Proof.
  induction a as [| c a IH]; [reflexivity |].
  change (String c (a +:+ EmptyString) = String c a). f_equal. exact IH.
Qed.

Lemma overwrite_empty (b : string) : overwrite EmptyString 0 b = b.
Proof.
  unfold overwrite.
  change (b +:+ Bytes.drop (String.length b) EmptyString = b).
  destruct (String.length b); apply string_append_empty.
Qed.

(** The backup path is not the path of the file. *)
Lemma bak_path_differs (dir filename : string) :
  filepath_Join dir (filename +:+ ".bak") <> filepath_Join dir filename.
Proof.
  intros H. apply (f_equal String.length) in H.
  unfold filepath_Join in H. rewrite !string_append_length in H. cbn in H. lia.
Qed.

Lemma os_Stat_found (path content : string) (fs : Fs) :
  files fs !! path = Some content ->
  os_Stat path fs = (None, record (SysStat path) fs).
Proof. intros H. unfold os_Stat. cbn [files record]. rewrite H. reflexivity. Qed.

Lemma os_Rename_found (oldpath newpath content : string) (fs : Fs) :
  files fs !! oldpath = Some content ->
  os_Rename oldpath newpath fs
  = (None, setFiles (<[newpath := content]> (delete oldpath (files fs)))
             (record (SysRename oldpath newpath) fs)).
Proof. intros H. unfold os_Rename. cbn [files record]. rewrite H. reflexivity. Qed.

(** C8: when the target file exists, [WriteDatabase] first renames it to the
    backup path and then opens the target; when the call returns an error the
    target holds what it held before the call; when it returns none the
    target holds the bytes of the stream (and the backup the old content). *)
Theorem WriteDatabase_backs_up_and_restores (s : FsStorageDriver) (name filename : string)
    (input : Stream) (fs : Fs) (old : string) :
  dbNameToFilename s name = Ok filename ->
  files fs !! filepath_Join (dataDir s) filename = Some old ->
  let filePath := filepath_Join (dataDir s) filename in
  let bakFilePath := filepath_Join (dataDir s) (filename +:+ ".bak") in
  let r := FsStorageDriver_WriteDatabase s name input fs in
  (exists rest,
      trace r.2 = trace fs ++ [SysStat filePath; SysRename filePath bakFilePath;
                               SysOpen filePath (Z.lor O_CREAT O_WRONLY)] ++ rest)
  /\ (r.1 <> None -> files r.2 !! filePath = Some old)
  /\ (r.1 = None ->
      files r.2 !! filePath = Some (data input) /\ files r.2 !! bakFilePath = Some old).
Proof.
  intros Hname Hold filePath bakFilePath r.
  pose proof (bak_path_differs (dataDir s) filename) as Hne. fold filePath bakFilePath in Hne.
  subst r. unfold FsStorageDriver_WriteDatabase. rewrite Hname.
  fold filePath bakFilePath.
  rewrite (os_Stat_found filePath old fs Hold).
  rewrite (os_Rename_found filePath bakFilePath old); [| exact Hold].
  set (fs2 := setFiles _ (record (SysRename filePath bakFilePath) (record (SysStat filePath) fs))).
  assert (Hbak2 : files fs2 !! bakFilePath = Some old)
    by (subst fs2; cbn [files setFiles]; apply lookup_insert_eq).
  assert (Hfile2 : files fs2 !! filePath = None).
  { subst fs2; cbn [files setFiles].
    rewrite lookup_insert_ne by exact Hne. apply lookup_delete_eq. }
  assert (Htrace2 : trace fs2 = trace fs ++ [SysStat filePath; SysRename filePath bakFilePath]).
  { subst fs2. cbn [trace setFiles record]. rewrite <- app_assoc. reflexivity. }
  unfold os_OpenFile. cbn [open_fault record files].
  destruct (open_fault fs2 filePath) as [errno |] eqn:Hopen.
  - (* the open fails: the backup is renamed back *)
    cbn [restoreBackup fst snd].
    rewrite (os_Rename_found bakFilePath filePath old) by exact Hbak2.
    cbn [snd files setFiles trace record].
    split; [| split].
    + exists [SysRename bakFilePath filePath]. rewrite Htrace2, <- !app_assoc. reflexivity.
    + intros _. apply lookup_insert_eq.
    + intros [=].
  - rewrite Hfile2.
    replace (Z.land (Z.lor O_CREAT O_WRONLY) O_CREAT =? 0)%Z with false by reflexivity.
    set (fs3 := setFiles _ (record (SysOpen filePath (Z.lor O_CREAT O_WRONLY)) fs2)).
    assert (Hbak3 : files fs3 !! bakFilePath = Some old).
    { subst fs3; cbn [files setFiles record]. rewrite lookup_insert_ne; [exact Hbak2 |].
      intros Heq. apply Hne. symmetry. exact Heq. }
    assert (Hfile3 : files fs3 !! filePath = Some EmptyString)
      by (subst fs3; cbn [files setFiles]; apply lookup_insert_eq).
    assert (Htrace3 : trace fs3 = trace fs ++ [SysStat filePath; SysRename filePath bakFilePath;
                                               SysOpen filePath (Z.lor O_CREAT O_WRONLY)]).
    { subst fs3. cbn [trace setFiles record]. rewrite Htrace2, <- app_assoc. reflexivity. }
    unfold io_Copy.
    destruct (String.eqb (data input) EmptyString) eqn:Hempty.
    + (* nothing to write *)
      apply String.eqb_eq in Hempty.
      destruct (final input) as [e |] eqn:Hfinal.
      * cbn [restoreBackup fst snd].
        rewrite (os_Rename_found bakFilePath filePath old) by exact Hbak3.
        cbn [snd files setFiles trace record].
        split; [| split].
        -- exists [SysRename bakFilePath filePath]. rewrite Htrace3, <- !app_assoc. reflexivity.
        -- intros _. apply lookup_insert_eq.
        -- intros [=].
      * cbn [restoreBackup fst snd].
        split; [| split].
        -- exists []. rewrite Htrace3. reflexivity.
        -- intros H. exfalso. apply H. reflexivity.
        -- intros _. rewrite Hempty. split; assumption.
    + unfold file_Write. cbn [write_fault record fpath foffset files].
      destruct (write_fault fs3 filePath) as [errno |] eqn:Hwrite.
      * (* the write fails *)
        cbn [restoreBackup fst snd].
        rewrite (os_Rename_found bakFilePath filePath old)
          by (cbn [files record]; exact Hbak3).
        cbn [snd files setFiles trace record].
        split; [| split].
        -- exists [SysWrite filePath (String.length (data input)); SysRename bakFilePath filePath].
           rewrite Htrace3, <- !app_assoc. reflexivity.
        -- intros _. apply lookup_insert_eq.
        -- intros [=].
      * rewrite Hfile3. cbn [default from_option].
        set (fs4 := setFiles _ (record (SysWrite filePath (String.length (data input))) fs3)).
        assert (Hfile4 : files fs4 !! filePath = Some (data input)).
        { subst fs4; cbn [files setFiles]. rewrite lookup_insert_eq.
          unfold id. rewrite overwrite_empty. reflexivity. }
        assert (Hbak4 : files fs4 !! bakFilePath = Some old).
        { subst fs4; cbn [files setFiles record]. rewrite lookup_insert_ne; [exact Hbak3 |].
          intros Heq. apply Hne. symmetry. exact Heq. }
        assert (Htrace4 : trace fs4 = trace fs ++ [SysStat filePath; SysRename filePath bakFilePath;
                                                   SysOpen filePath (Z.lor O_CREAT O_WRONLY)]
                                        ++ [SysWrite filePath (String.length (data input))]).
        { subst fs4. cbn [trace setFiles record]. rewrite Htrace3, <- app_assoc. reflexivity. }
        destruct (final input) as [e |] eqn:Hfinal.
        -- (* the reader fails after its bytes were written *)
           cbn [restoreBackup fst snd].
           rewrite (os_Rename_found bakFilePath filePath old) by exact Hbak4.
           cbn [snd files setFiles trace record].
           split; [| split].
           ++ exists [SysWrite filePath (String.length (data input)); SysRename bakFilePath filePath].
              rewrite Htrace4, <- !app_assoc. reflexivity.
           ++ intros _. apply lookup_insert_eq.
           ++ intros [=].
        -- cbn [restoreBackup fst snd].
           split; [| split].
           ++ exists [SysWrite filePath (String.length (data input))]. exact Htrace4.
           ++ intros H. exfalso. apply H. reflexivity.
           ++ intros _. split; assumption.
Qed.

(** ** A refresh with every URL down *)

Section Refresh.
Variable nz : string -> Result string.
Context {St : Type} {driver : StorageDriver St}.

Lemma Split_newlines (n : nat) :
  Strings.Split (newlines n) (Bytes.byte 10) = repeat EmptyString (S n).
Proof.
  induction n as [| n IH]; [reflexivity |].
  cbn [newlines Strings.Split].
  replace (Ascii.eqb (Bytes.byte 10) (Bytes.byte 10)) with true by reflexivity.
  rewrite IH. reflexivity.
Qed.

Lemma tokensOf_empty_pieces (n : nat) :
  tokensOf (repeat EmptyString (S n)) = (repeat EmptyString n, ReaderExhausted).
Proof.
  induction n as [| n IH]; [reflexivity |].
  change (repeat EmptyString (S (S n))) with (EmptyString :: repeat EmptyString (S n)).
  cbn [tokensOf].
  replace (N.leb MaxScanTokenSize (Bytes.len EmptyString)) with false by reflexivity.
  change (repeat EmptyString (S n)) with (EmptyString :: repeat EmptyString n) at 1.
  cbv beta iota.
  change (EmptyString :: repeat EmptyString n) with (repeat EmptyString (S n)).
  rewrite IH. reflexivity.
Qed.

(** Empty lines leave the state of the loop as it is, up to the count of
    the lines taken. *)
Lemma scanLoop_empty_lines (n : nat) (st : LoadState) :
  domains (scanLoop nz (repeat EmptyString n) st).1 = domains st
  /\ failures (scanLoop nz (repeat EmptyString n) st).1 = failures st
  /\ goodLines (scanLoop nz (repeat EmptyString n) st).1 = goodLines st.
Proof.
  revert st. induction n as [| n IH]; intros st; [repeat split |].
  cbn [repeat scanLoop countScan failures].
  destruct (Nat.ltb (length (failures st)) maxFailures).
  - change (loadLine nz EmptyString (countScan st)) with (countScan st).
    destruct (IH (countScan st)) as (Hd & Hf & Hg). rewrite Hd, Hf, Hg. repeat split.
  - repeat split.
Qed.

(** When no HTTP call succeeds the pipe holds one newline for each URL and
    as many failures are recorded. *)
Lemma fetchAll_down (env : Env) (urls : list string) :
  Forall (fun srcUrl => exists e, http env srcUrl = HttpError e) urls ->
  (fetchAll env urls).1 = newlines (length urls)
  /\ length (fetchAll env urls).2 = length urls.
Proof.
  induction 1 as [| srcUrl rest [e He] _ IH]; [split; reflexivity |].
  cbn [fetchAll]. unfold fetchUrl. rewrite He.
  destruct (fetchAll env rest) as [more fs]. cbn [fst snd] in *.
  destruct IH as [-> Hlen]. cbn. rewrite Hlen. split; reflexivity.
Qed.

(** With a source of URLs none of which can be fetched, a refresh of a
    configured name installs the empty set, whatever the storage then does. *)
Lemma refresh_with_every_url_down_empties_set (env : Env) (s : DomainDb) (st : St)
    (name : string) (entry : dbSrcMap) :
  dbs s !! name = Some entry ->
  Get (db.Src entry) = None ->
  Urls (db.Src entry) <> [] ->
  Forall (fun srcUrl => exists e, http env srcUrl = HttpError e) (Urls (db.Src entry)) ->
  exists e' st',
    DownloadAndLoadDatabase nz env s st name = Ret (e', setDomains name ∅ s, st').
Proof.
  intros Hdata Hget Hurls Hdown.
  unfold DownloadAndLoadDatabase. rewrite Hdata.
  unfold openDataSource. rewrite Hget.
  destruct (Urls (db.Src entry)) as [| u rest] eqn:Hlist; [contradiction |].
  cbn [length Nat.ltb Nat.leb].
  destruct (fetchAll_down env (u :: rest) Hdown) as [Hdata' Hlen].
  set (reader := urlPipe env (u :: rest)).
  assert (Hbytes : data reader = newlines (length (u :: rest))).
  { subst reader. unfold urlPipe.
    destruct (fetchAll env (u :: rest)) as [w fs]. cbn [fst snd] in *.
    destruct (Nat.eqb (length fs) (length (u :: rest))); exact Hdata'. }
  assert (Hload : loadDomainsFromReader nz s reader name
                  = Ret (None, setDomains name ∅ s)).
  { unfold loadDomainsFromReader, runScan, scanLines. rewrite Hbytes, Split_newlines.
    rewrite tokensOf_empty_pieces. cbn [fst].
    destruct (scanLoop_empty_lines (length (u :: rest)) initialLoad) as (Hd & Hf & Hg).
    destruct (scanLoop nz (repeat EmptyString (length (u :: rest))) initialLoad) as [ls b].
    cbn [fst] in Hd, Hf, Hg. rewrite Hd, Hf, Hg, Hdata. reflexivity. }
  rewrite Hload. cbn [obind].
  destruct (WriteDatabase name {| data := teed nz env reader; final := None |} st)
    as [[e |] st']; eauto.
Qed.

End Refresh.

(** ** Source opener *)

(** A failure is recorded for a URL exactly when the URL counts as failed. *)
Lemma fetchUrl_failure (env : Env) (srcUrl : string) :
  is_Some (fetchUrl env srcUrl).2 <-> urlFailed env srcUrl = true.
Proof.
  unfold fetchUrl, urlFailed.
  destruct (http env srcUrl) as [e | code body]; cbn.
  - split; [reflexivity | intros _; eexists; reflexivity].
  - destruct (Z.eqb code 200); cbn.
    + destruct (final body); cbn; split; intros H; try reflexivity; try discriminate.
      * eexists; reflexivity.
      * destruct H as [x Hx]. discriminate.
    + split; [reflexivity | intros _; eexists; reflexivity].
Qed.

(** The failures [fetchAll] collects are those of the URLs, in order. *)
Lemma fetchAll_failures (env : Env) (urls : list string) :
  (fetchAll env urls).2 = omap (fun srcUrl => (fetchUrl env srcUrl).2) urls.
Proof.
  induction urls as [| srcUrl rest IH]; [reflexivity |].
  cbn [fetchAll omap list_omap].
  destruct (fetchUrl env srcUrl) as [body failure].
  destruct (fetchAll env rest) as [more fs]. cbn [snd] in *.
  rewrite <- IH. destruct failure; reflexivity.
Qed.

Lemma omap_length_le {A B} (f : A -> option B) (l : list A) :
  length (omap f l) <= length l.
Proof. induction l as [| a l IH]; cbn; [lia |]. destruct (f a); cbn; lia. Qed.

Lemma omap_length_all {A B} (f : A -> option B) (l : list A) :
  length (omap f l) = length l <-> forallb (fun a => bool_decide (is_Some (f a))) l = true.
Proof.
  induction l as [| a l IH]; cbn; [tauto |].
  pose proof (omap_length_le f l) as Hle.
  destruct (f a) as [b |] eqn:Hfa; cbn.
  - rewrite <- IH. lia.
  - split; [lia | discriminate].
Qed.

(** All the URLs failed exactly when as many failures as URLs were recorded. *)
Lemma all_failed_count (env : Env) (urls : list string) :
  length (fetchAll env urls).2 = length urls <-> forallb (urlFailed env) urls = true.
Proof.
  rewrite fetchAll_failures, omap_length_all.
  assert (Hext : forall l, forallb (fun a => bool_decide (is_Some (fetchUrl env a).2)) l
                           = forallb (urlFailed env) l).
  { induction l as [| a l IH]; [reflexivity |]. cbn. rewrite IH. f_equal.
    destruct (urlFailed env a) eqn:Hf.
    - apply bool_decide_eq_true_2, fetchUrl_failure, Hf.
    - apply bool_decide_eq_false_2. intros H. apply fetchUrl_failure in H. congruence. }
  rewrite Hext. tauto.
Qed.

(** C9: opening a source that has URLs and no [Get] gives a stream.  When
    every URL failed the stream ends, after the bytes written, with the error
    that joins the failures of the URLs (one for each) and [ErrAllUrlsFailed];
    when some URL did not fail it ends cleanly, whatever else failed. *)
Theorem openDataSource_urls_failure_policy (env : Env) (src : DataSource) :
  Get src = None ->
  Urls src <> [] ->
  let recorded := omap (fun srcUrl => (fetchUrl env srcUrl).2) (Urls src) in
  let written := (fetchAll env (Urls src)).1 in
  (forallb (urlFailed env) (Urls src) = true ->
     length recorded = length (Urls src)
     /\ errors_Is_AllUrlsFailed (Joined (recorded ++ [ErrAllUrlsFailed])) = true
     /\ openDataSource env src
        = (Some {| data := written;
                   final := Some (Joined (recorded ++ [ErrAllUrlsFailed])) |}, None))
  /\ (existsb (fun srcUrl => negb (urlFailed env srcUrl)) (Urls src) = true ->
      openDataSource env src = (Some {| data := written; final := None |}, None)).
Proof.
  intros Hget Hurls recorded written.
  assert (Hopen : openDataSource env src = (Some (urlPipe env (Urls src)), None)).
  { unfold openDataSource. rewrite Hget.
    destruct (Urls src) as [| u rest]; [contradiction | reflexivity]. }
  pose proof (all_failed_count env (Urls src)) as Hcount.
  pose proof (fetchAll_failures env (Urls src)) as Hrec. fold recorded in Hrec.
  unfold urlPipe in Hopen.
  destruct (fetchAll env (Urls src)) as [w fs] eqn:Hall. cbn [fst snd] in *.
  subst written fs.
  split.
  - intros Hfailed. apply Hcount in Hfailed.
    split; [exact Hfailed |]. split.
    + cbn. rewrite existsb_app. cbn. apply orb_true_r.
    + rewrite Hopen. apply Nat.eqb_eq in Hfailed. rewrite Hfailed. reflexivity.
  - intros Hsome.
    assert (Hnot : forallb (urlFailed env) (Urls src) = false).
    { apply existsb_exists in Hsome. destruct Hsome as (u & Hin & Hu).
      destruct (forallb (urlFailed env) (Urls src)) eqn:Hall'; [| reflexivity].
      rewrite forallb_forall in Hall'. specialize (Hall' u Hin).
      rewrite Hall' in Hu. discriminate. }
    rewrite Hopen.
    destruct (Nat.eqb (length recorded) (length (Urls src))) eqn:Heq; [| reflexivity].
    apply Nat.eqb_eq, Hcount in Heq. congruence.
Qed.

(** ** Queries *)

Section Query.
Variable nz : string -> Result string.


Context {St : Type} {driver : StorageDriver St}.

(** C10: the instance a background construction returns has, for every
    configured name, an entry with the empty set; as long as the set of a
    name is empty a query for a domain that normalizes answers [false] with
    a nil error; and a load that fails, or the load of another name, leaves
    the set empty. *)
Theorem unloaded_database_answers_false (options : Options) (env : Env) (st : St)
    (r : NewResult) (s : DomainDb) (name : string) :
  LoadDatabasesInBackground options = true ->
  NewDomainDb nz options env st = Ret r ->
  instance r = Some s ->
  is_Some (Sources options !! name) ->
  unloaded s name
  /\ (forall s1 raw n,
         unloaded s1 name -> nz raw = Ok n ->
         DoesDbHaveDomain nz s1 name raw = (false, None))
  /\ (forall s1 s2 reader name' e,
         unloaded s1 name ->
         loadDomainsFromReader nz s1 reader name' = Ret (e, s2) ->
         e <> None \/ name' <> name ->
         unloaded s2 name).
Proof.
  intros Hbg Hnew Hinst [src Hsrc]. split; [| split].
  - unfold NewDomainDb in Hnew. rewrite Hbg in Hnew.
    destruct (ReadCheckpoints st) as [[cps | e0] st'].
    + injection Hnew as <-. cbn in Hinst. injection Hinst as <-.
      unfold unloaded. cbn [dbs]. rewrite lookup_fmap, Hsrc. cbn.
      eexists. split; reflexivity.
    + destruct (errors_Is_ENOENT e0).
      * injection Hnew as <-. cbn in Hinst. injection Hinst as <-.
        unfold unloaded. cbn [dbs]. rewrite lookup_fmap, Hsrc. cbn.
        eexists. split; reflexivity.
      * injection Hnew as <-. cbn in Hinst. discriminate.
  - intros s1 raw n (data & Hdata & Hempty) Hn.
    unfold DoesDbHaveDomain. rewrite Hdata, Hn, Hempty.
    rewrite bool_decide_eq_false_2 by set_solver. reflexivity.
  - intros s1 s2 reader name' e (data & Hdata & Hempty) Hload Hcase.
    unfold loadDomainsFromReader in Hload.
    destruct (runScan nz reader) as [ls b].
    destruct (Nat.ltb (goodLines ls) (length (failures ls))).
    + injection Hload as <- <-. exists data. split; assumption.
    + destruct (dbs s1 !! name') as [data' |] eqn:Hdata'; [| discriminate].
      injection Hload as <- <-.
      destruct Hcase as [Hc | Hc]; [contradiction |].
      exists data. split; [| assumption].
      unfold setDomains. cbn [dbs]. rewrite lookup_alter_ne by exact Hc. exact Hdata.
Qed.

End Query.

(** ** The statements at concrete inputs *)



(** A write whose stream breaks off restores the cached file; a write that
    completes replaces it and keeps the old content as the backup. *)
Lemma WriteDatabase_backs_up_and_restores_witness :
  dbNameToFilename Scenario.driver "disposable" = Ok "disposable.txt"
  /\ files Scenario.cachedDisk !! filepath_Join (dataDir Scenario.driver) "disposable.txt"
     = Some ("old.com" +:+ Sample.newline)
  /\ (let r := FsStorageDriver_WriteDatabase Scenario.driver "disposable"
                 {| data := "new.c"; final := Some ErrClosedPipe |} Scenario.cachedDisk in
      r.1 <> None
      /\ files r.2 !! "/data/disposable.txt" = Some ("old.com" +:+ Sample.newline))
  /\ (let r := FsStorageDriver_WriteDatabase Scenario.driver "disposable"
                 {| data := "new.com" +:+ Sample.newline; final := None |}
                 Scenario.cachedDisk in
      r.1 = None
      /\ files r.2 !! "/data/disposable.txt" = Some ("new.com" +:+ Sample.newline)
      /\ files r.2 !! "/data/disposable.txt.bak" = Some ("old.com" +:+ Sample.newline)).
Proof.
  assert (Hname : dbNameToFilename Scenario.driver "disposable" = Ok "disposable.txt")
    by (vm_compute; reflexivity).
  assert (Hold : files Scenario.cachedDisk
                 !! filepath_Join (dataDir Scenario.driver) "disposable.txt"
                 = Some ("old.com" +:+ Sample.newline))
    by (vm_compute; reflexivity).
  split; [exact Hname |]. split; [exact Hold |]. split.
  - destruct (WriteDatabase_backs_up_and_restores Scenario.driver "disposable"
                "disposable.txt" {| data := "new.c"; final := Some ErrClosedPipe |}
                Scenario.cachedDisk _ Hname Hold) as (_ & Herr & _).
    cbv zeta. assert (Hfail : (FsStorageDriver_WriteDatabase Scenario.driver "disposable"
                {| data := "new.c"; final := Some ErrClosedPipe |} Scenario.cachedDisk).1 <> None)
      by (vm_compute; discriminate).
    split; [exact Hfail |]. exact (Herr Hfail).
  - destruct (WriteDatabase_backs_up_and_restores Scenario.driver "disposable"
                "disposable.txt" {| data := "new.com" +:+ Sample.newline; final := None |}
                Scenario.cachedDisk _ Hname Hold) as (_ & _ & Hok).
    cbv zeta. assert (Hdone : (FsStorageDriver_WriteDatabase Scenario.driver "disposable"
                {| data := "new.com" +:+ Sample.newline; final := None |}
                Scenario.cachedDisk).1 = None)
      by (vm_compute; reflexivity).
    split; [exact Hdone |]. exact (Hok Hdone).
Defined.

(** One URL that fails: the stream holds the newline written after it and
    ends with the joined error. *)
Lemma openDataSource_urls_failure_policy_witness :
  Get Scenario.source = None
  /\ Urls Scenario.source <> []
  /\ forallb (urlFailed Scenario.offline) (Urls Scenario.source) = true
  /\ exists e,
      openDataSource Scenario.offline Scenario.source
      = (Some {| data := Sample.newline; final := Some e |}, None)
      /\ errors_Is_AllUrlsFailed e = true.
Proof.
  assert (Hget : Get Scenario.source = None) by reflexivity.
  assert (Hurls : Urls Scenario.source <> []) by discriminate.
  assert (Hall : forallb (urlFailed Scenario.offline) (Urls Scenario.source) = true)
    by reflexivity.
  split; [exact Hget |]. split; [exact Hurls |]. split; [exact Hall |].
  destruct (openDataSource_urls_failure_policy Scenario.offline Scenario.source Hget Hurls)
    as [Hfailed _].
  destruct (Hfailed Hall) as (_ & His & Hopen).
  eexists. split; [exact Hopen | exact His].
Defined.

(** A background construction: the instance answers [false] for [a.com]. *)
Lemma unloaded_database_answers_false_witness :
  LoadDatabasesInBackground (Scenario.options false true) = true
  /\ is_Some (Sources (Scenario.options false true) !! "disposable")
  /\ exists r s,
      NewDomainDb Scenario.normalizer (driver := Scenario.storage)
        (Scenario.options false true) Scenario.online Scenario.emptyDisk = Ret r
      /\ instance r = Some s
      /\ DoesDbHaveDomain Scenario.normalizer s "disposable" "a.com" = (false, None).
Proof.
  assert (Hbg : LoadDatabasesInBackground (Scenario.options false true) = true) by reflexivity.
  assert (Hsrc : is_Some (Sources (Scenario.options false true) !! "disposable"))
    by (eexists; vm_compute; reflexivity).
  split; [exact Hbg |]. split; [exact Hsrc |].
  destruct (NewDomainDb Scenario.normalizer (driver := Scenario.storage)
              (Scenario.options false true) Scenario.online Scenario.emptyDisk)
    as [r | why] eqn:Hnew; [| vm_compute in Hnew; discriminate].
  destruct (instance r) as [s |] eqn:Hinst;
    [| vm_compute in Hnew; injection Hnew as <-; discriminate].
  exists r, s. split; [reflexivity |]. split; [exact Hinst |].
  destruct (unloaded_database_answers_false Scenario.normalizer (driver := Scenario.storage)
              (Scenario.options false true) Scenario.online Scenario.emptyDisk r s
              "disposable" Hbg Hnew Hinst Hsrc) as (Hun & Hanswer & _).
  apply (Hanswer s "a.com" "a.com" Hun). vm_compute. reflexivity.
Defined.

(** * Further properties *)

(** ** Normalizer: what a result looks like *)

Lemma ldh_test_is_ldhByte (c : ascii) :
  (let c := Bytes.code c in
   ((N.leb 97 c && N.leb c 122) || (N.leb 48 c && N.leb c 57) || N.eqb c 45)%N)
  = ldhByte c.
Proof. destruct c as [[] [] [] [] [] [] [] []]; reflexivity. Qed.

Lemma forallb_pointwise {A} (f g : A -> bool) (l : list A) :
  (forall a, f a = g a) -> forallb f l = forallb g l.
Proof. intros H. induction l as [| a l IH]; cbn; [reflexivity | rewrite H, IH; reflexivity]. Qed.

Lemma byteAt_zero (c : ascii) (t : string) : Utf8.byteAt (String c t) 0 = Bytes.code c.
Proof. reflexivity. Qed.

Lemma byteAt_succ (c : ascii) (t : string) (i : nat) :
  Utf8.byteAt (String c t) (Z.of_nat (S i)) = Utf8.byteAt t (Z.of_nat i).
Proof.
  unfold Utf8.byteAt.
  destruct (Z.ltb_spec (Z.of_nat (S i)) 0) as [H | _]; [lia |].
  destruct (Z.ltb_spec (Z.of_nat i) 0) as [H | _]; [lia |].
  rewrite !Nat2Z.id. reflexivity.
Qed.

(** The byte at the last position is the last byte. *)
Lemma byteAt_last (s : string) :
  s <> EmptyString ->
  exists c, lastByte s = Some c
            /\ Utf8.byteAt s (Z.of_nat (String.length s) - 1) = Bytes.code c.
Proof.
  induction s as [| c t IH]; [congruence |]. intros _.
  destruct t as [| c' t'].
  - exists c. split; reflexivity.
  - destruct IH as (d & Hlast & Hat); [discriminate |].
    exists d. split; [exact Hlast |].
    replace (Z.of_nat (String.length (String c (String c' t'))) - 1)%Z
      with (Z.of_nat (S (String.length t'))) by (cbn [String.length]; lia).
    rewrite byteAt_succ.
    replace (Z.of_nat (S (String.length t')))
      with (Z.of_nat (String.length (String c' t')) - 1 + 1)%Z in *
      by (cbn [String.length]; lia).
    replace (Z.of_nat (String.length t'))
      with (Z.of_nat (String.length (String c' t')) - 1)%Z
      by (cbn [String.length]; lia).
    exact Hat.
Qed.

(** A label [isLDHOrPunycode] accepts, of a length in range, is canonical. *)
Lemma isLDHOrPunycode_canonical (lbl : string) :
  (N.eqb (Bytes.len lbl) 0 || N.ltb 63 (Bytes.len lbl))%N = false ->
  normalize.isLDHOrPunycode lbl = true ->
  canonicalLabel lbl.
Proof.
  intros Hlen Hldh. apply orb_false_iff in Hlen. destruct Hlen as [Hne Hle].
  apply N.eqb_neq in Hne. apply N.ltb_ge in Hle. unfold Bytes.len in Hne, Hle.
  assert (Hnonempty : lbl <> EmptyString) by (intros ->; apply Hne; reflexivity).
  unfold normalize.isLDHOrPunycode in Hldh.
  destruct (Nat.eqb (String.length lbl) 0) eqn:Hz; [discriminate |].
  destruct (byteAt_last lbl Hnonempty) as (cl & Hlast & Hat). rewrite Hat in Hldh.
  destruct (normalize.isAlnum (Bytes.code cl)) eqn:Hal; [| discriminate]. cbn [negb] in Hldh.
  destruct (negb (normalize.isAlnum (Utf8.byteAt lbl 0)) && negb (Strings.HasPrefix lbl "xn--"))
    eqn:Hstart; [discriminate |].
  split; [lia |]. split.
  - rewrite <- Hldh. apply forallb_pointwise. intros c. symmetry. apply ldh_test_is_ldhByte.
  - split; [exists cl; split; assumption |].
    apply andb_false_iff in Hstart. destruct Hstart as [H | H]; apply negb_false_iff in H.
    + left. destruct lbl as [| c0 t]; [congruence |]. exists c0. split; [reflexivity | exact H].
    + right. exact H.
Qed.

Lemma checkLabels_canonical (labels : list string) :
  normalize.checkLabels labels = None -> Forall canonicalLabel labels.
Proof.
  induction labels as [| lbl rest IH]; [constructor |].
  cbn [normalize.checkLabels].
  destruct (N.eqb (Bytes.len lbl) 0 || N.ltb 63 (Bytes.len lbl))%N eqn:Hlen; [discriminate |].
  destruct (normalize.isLDHOrPunycode lbl) eqn:Hldh; [| discriminate].
  intros Hrest. constructor; [apply isLDHOrPunycode_canonical; assumption | auto].
Qed.

(** X1: whatever the IDNA profile and the replacer, a name that
    [NormalizeDomain] returns has at most 253 bytes and splits at its dots into
    canonical labels: 1 to 63 lowercase letters, digits and hyphens, no hyphen
    at the end, none at the start unless the label starts with [xn--]. *)
Theorem NormalizeDomain_result_canonical (ext : External) (n : normalize.DomainNormalizer)
    (input ascii : string) :
  normalize.NormalizeDomain ext n input = Ok ascii ->
  String.length ascii <= 253 /\ Forall canonicalLabel (Strings.Split ascii ".").
Proof.
  unfold normalize.NormalizeDomain.
  repeat match goal with
         | |- (if ?b then Err _ else _) = Ok _ -> _ => destruct b; [discriminate |]
         end.
  destruct (normalize.profile n _) as [a | e]; [| discriminate].
  destruct (normalize.checkLabels _) eqn:Hlabels; [discriminate |].
  destruct (N.ltb 253 (Bytes.len _)) eqn:Hlen; [discriminate |].
  intros [= <-]. split.
  - apply N.ltb_ge in Hlen. unfold Bytes.len in Hlen. lia.
  - apply checkLabels_canonical. exact Hlabels.
Qed.

Lemma NormalizeDomain_result_canonical_witness :
  normalize.NormalizeDomain Sample.ext (normalize.NewDomainNormalizer Sample.ext)
    " Mail.Example.COM. " = Ok "mail.example.com"
  /\ String.length "mail.example.com" <= 253
  /\ Forall canonicalLabel ["mail"; "example"; "com"].
Proof.
  assert (H : normalize.NormalizeDomain Sample.ext (normalize.NewDomainNormalizer Sample.ext)
                " Mail.Example.COM. " = Ok "mail.example.com") by (vm_compute; reflexivity).
  split; [exact H |].
  exact (NormalizeDomain_result_canonical Sample.ext _ _ _ H).
Defined.

(** ** Normalizer: invisible characters *)

Lemma ascii_rune (c : ascii) :
  N.ltb (Bytes.code c) Utf8.RuneSelf = true ->
  normalize.invisible (Bytes.code c) = controlByte c
  /\ Utf8.EncodeRune (Bytes.code c) = String c EmptyString.
Proof.
  destruct c as [[] [] [] [] [] [] [] []]; vm_compute; intros H;
    first [discriminate H | split; reflexivity].
Qed.

Lemma stripInvisibleChars_filter (s : string) :
  Strings.isASCII s = true ->
  normalize.stripInvisibleChars s = dropControls s.
Proof.
  unfold normalize.stripInvisibleChars, Utf8.runes, Strings.isASCII.
  induction s as [| c t IH]; [reflexivity |].
  cbn [Bytes.to_list list_ascii_of_string forallb]. intros H.
  apply andb_true_iff in H. destruct H as [Hc Ht].
  destruct (ascii_rune c Hc) as [Hinv Henc].
  cbn [Utf8.runesFrom Utf8.DecodeRuneInString]. rewrite Hc.
  cbn [normalize.writeRunes Nat.sub dropControls]. rewrite Hinv, Henc.
  change (Utf8.runesFrom 0 t) with (Utf8.runesFrom 0%nat t).
  rewrite (IH Ht). destruct (controlByte c); reflexivity.
Qed.

(** X2: on a string of ASCII bytes [stripInvisibleChars] removes the control
    bytes and DEL and nothing else. *)
Theorem stripInvisibleChars_ascii (s : string) :
  Strings.isASCII s = true ->
  normalize.stripInvisibleChars s = dropControls s.
Proof. exact (stripInvisibleChars_filter s). Qed.

Lemma stripInvisibleChars_ascii_witness :
  Strings.isASCII ("exa" +:+ String (Bytes.byte 9) "mple" +:+ String (Bytes.byte 127) ".com") = true
  /\ normalize.stripInvisibleChars
       ("exa" +:+ String (Bytes.byte 9) "mple" +:+ String (Bytes.byte 127) ".com")
     = "example.com".
Proof.
  assert (H : Strings.isASCII
                ("exa" +:+ String (Bytes.byte 9) "mple" +:+ String (Bytes.byte 127) ".com")
              = true) by reflexivity.
  split; [exact H |].
  rewrite (stripInvisibleChars_ascii _ H). reflexivity.
Defined.

(** ** Storage driver: file names *)

Lemma queryUnescape_step (c : ascii) (t : string) :
  queryUnescape (url_QueryEscape (String c t)) = String c (queryUnescape (url_QueryEscape t)).
Proof. destruct c as [[] [] [] [] [] [] [] []]; reflexivity. Qed.

(** An escaped name can be read back. *)
Lemma queryUnescape_QueryEscape (s : string) : queryUnescape (url_QueryEscape s) = s.
Proof.
  induction s as [| c t IH]; [reflexivity |].
  rewrite queryUnescape_step, IH. reflexivity.
Qed.

Lemma url_QueryEscape_injective (a b : string) :
  url_QueryEscape a = url_QueryEscape b -> a = b.
Proof.
  intros H. apply (f_equal queryUnescape) in H.
  rewrite !queryUnescape_QueryEscape in H. exact H.
Qed.

Lemma string_append_cancel_r (a b x : string) : a +:+ x = b +:+ x -> a = b.
Proof.
  revert b. induction a as [| c a IH]; intros b H.
  - destruct b as [| d b]; [reflexivity |].
    apply (f_equal String.length) in H. rewrite !string_append_length in H.
    cbn in H. lia.
  - destruct b as [| d b].
    + apply (f_equal String.length) in H. rewrite !string_append_length in H.
      cbn in H. lia.
    + change (String c (a +:+ x) = String d (b +:+ x)) in H.
      injection H as -> H. f_equal. apply IH. exact H.
Qed.

Lemma url_QueryEscape_bytes (s : string) :
  forallb escapedByte (Bytes.to_list (url_QueryEscape s)) = true.
Proof.
  induction s as [| c t IH]; [reflexivity |].
  destruct c as [[] [] [] [] [] [] [] []]; exact IH.
Qed.

Lemma no_separator (e rest : string) :
  forallb escapedByte (Bytes.to_list e) = true ->
  Strings.Contains (e +:+ rest) "/" = Strings.Contains rest "/".
Proof.
  induction e as [| c t IH]; [reflexivity |].
  cbn [Bytes.to_list list_ascii_of_string forallb]. intros H.
  apply andb_true_iff in H. destruct H as [Hc Ht].
  change (String c t +:+ rest) with (String c (t +:+ rest)).
  cbn [Strings.Contains]. rewrite (IH Ht).
  destruct c as [[] [] [] [] [] [] [] []]; try discriminate Hc;
    destruct (Strings.Contains rest "/"); reflexivity.
Qed.

(** X3: two database names that get the same file name are the same name, so
    distinct databases never share a cache file. *)
Theorem dbNameToFilename_injective (s s' : FsStorageDriver) (name name' filename : string) :
  dbNameToFilename s name = Ok filename ->
  dbNameToFilename s' name' = Ok filename ->
  name = name'.
Proof.
  unfold dbNameToFilename.
  destruct (N.ltb DbNameMaxSize (Bytes.len name)); [discriminate |].
  destruct (N.ltb DbNameMaxSize (Bytes.len name')); [discriminate |].
  intros [= <-] [= H].
  apply url_QueryEscape_injective. apply string_append_cancel_r in H. symmetry. exact H.
Qed.

Lemma dbNameToFilename_injective_witness :
  dbNameToFilename Scenario.driver "a b/c" = Ok "a+b%2Fc.txt"
  /\ (forall name, dbNameToFilename Scenario.driver name = Ok "a+b%2Fc.txt" -> name = "a b/c").
Proof.
  assert (H : dbNameToFilename Scenario.driver "a b/c" = Ok "a+b%2Fc.txt") by reflexivity.
  split; [exact H |].
  intros name Hname.
  exact (dbNameToFilename_injective Scenario.driver Scenario.driver name "a b/c" _ Hname H).
Defined.

(** X4: a name of more than 255 bytes is refused with [ErrDbNameTooLong];
    any other name gets a file name that ends in [.txt] and holds no path
    separator, only letters, digits and [- _ . ~ + %] before the ending. *)
Theorem dbNameToFilename_stays_in_directory (s : FsStorageDriver) (name : string) :
  (N.ltb 255 (Bytes.len name) = true -> dbNameToFilename s name = Err ErrDbNameTooLong)
  /\ (N.ltb 255 (Bytes.len name) = false ->
      exists e,
        dbNameToFilename s name = Ok (e +:+ ".txt")
        /\ forallb escapedByte (Bytes.to_list e) = true
        /\ Strings.Contains (e +:+ ".txt") "/" = false).
Proof.
  unfold dbNameToFilename, DbNameMaxSize. split; intros ->; [reflexivity |].
  exists (url_QueryEscape name). split; [reflexivity |].
  pose proof (url_QueryEscape_bytes name) as H. split; [exact H |].
  rewrite (no_separator _ _ H). reflexivity.
Qed.

(** ** Storage driver: reading back *)

Lemma os_Stat_missing (path : string) (fs : Fs) :
  files fs !! path = None ->
  os_Stat path fs = (Some (PathError "stat" path ENOENT), record (SysStat path) fs).
Proof. intros H. unfold os_Stat. cbn [files record]. rewrite H. reflexivity. Qed.

(** With no fault on the file and a stream that ends cleanly, [WriteDatabase]
    succeeds and the file holds the bytes of the stream. *)
Lemma WriteDatabase_success (s : FsStorageDriver) (name filename : string)
    (input : Stream) (fs : Fs) :
  dbNameToFilename s name = Ok filename ->
  open_fault fs (filepath_Join (dataDir s) filename) = None ->
  write_fault fs (filepath_Join (dataDir s) filename) = None ->
  final input = None ->
  let r := FsStorageDriver_WriteDatabase s name input fs in
  r.1 = None
  /\ files r.2 !! filepath_Join (dataDir s) filename = Some (data input)
  /\ open_fault r.2 = open_fault fs
  /\ write_fault r.2 = write_fault fs.
Proof.
  intros Hname Hopen Hwrite Hfinal r. subst r.
  pose proof (bak_path_differs (dataDir s) filename) as Hne.
  unfold FsStorageDriver_WriteDatabase. rewrite Hname.
  set (filePath := filepath_Join (dataDir s) filename) in *.
  set (bakFilePath := filepath_Join (dataDir s) (filename +:+ ".bak")) in *.
  assert (Hafter : forall fs2 : Fs,
             open_fault fs2 = open_fault fs -> write_fault fs2 = write_fault fs ->
             files fs2 !! filePath = None ->
             let r := match os_OpenFile filePath (Z.lor O_CREAT O_WRONLY) fsPermBits fs2 with
                      | (Err err, fs3) => (Some err, fs3)
                      | (Ok file, fs3) => io_Copy file input fs3
                      end in
             r.1 = None /\ files r.2 !! filePath = Some (data input)
             /\ open_fault r.2 = open_fault fs /\ write_fault r.2 = write_fault fs).
  { intros fs2 Ho Hw Hnone. unfold os_OpenFile. cbn [open_fault record files].
    rewrite Ho, Hopen, Hnone.
    replace (Z.land (Z.lor O_CREAT O_WRONLY) O_CREAT =? 0)%Z with false by reflexivity.
    unfold io_Copy. destruct (String.eqb (data input) EmptyString) eqn:Hempty.
    - apply String.eqb_eq in Hempty. rewrite Hfinal, Hempty.
      cbn [fst snd files setFiles open_fault write_fault record].
      rewrite lookup_insert_eq. repeat split; assumption.
    - unfold file_Write. cbn [write_fault setFiles record fpath foffset files].
      rewrite Hw, Hwrite, lookup_insert_eq. cbn [default from_option].
      rewrite Hfinal. cbn [fst snd files setFiles open_fault write_fault record].
      rewrite lookup_insert_eq. unfold id. rewrite overwrite_empty.
      repeat split; assumption. }
  destruct (files fs !! filePath) as [old |] eqn:Hold.
  - rewrite (os_Stat_found filePath old fs Hold).
    rewrite (os_Rename_found filePath bakFilePath old) by exact Hold.
    set (fs2 := setFiles _ _).
    specialize (Hafter fs2 eq_refl eq_refl).
    assert (Hnone : files fs2 !! filePath = None).
    { subst fs2. cbn [files setFiles record].
      rewrite lookup_insert_ne by exact Hne. apply lookup_delete_eq. }
    specialize (Hafter Hnone). cbv zeta in Hafter.
    destruct (os_OpenFile filePath (Z.lor O_CREAT O_WRONLY) fsPermBits fs2) as [[file | e] fs3].
    + destruct (io_Copy file input fs3) as [[e |] fs4]; cbn [fst snd] in *.
      * destruct Hafter as [H _]. discriminate.
      * cbn [restoreBackup]. exact Hafter.
    + destruct Hafter as [H _]. discriminate.
  - rewrite (os_Stat_missing filePath fs Hold).
    set (fs2 := record (SysStat filePath) fs).
    specialize (Hafter fs2 eq_refl eq_refl Hold). cbv zeta in Hafter.
    destruct (os_OpenFile filePath (Z.lor O_CREAT O_WRONLY) fsPermBits fs2) as [[file | e] fs3].
    + destruct (io_Copy file input fs3) as [[e |] fs4]; cbn [fst snd] in *.
      * destruct Hafter as [H _]. discriminate.
      * cbn [restoreBackup]. exact Hafter.
    + destruct Hafter as [H _]. discriminate.
Qed.

(** X5: when nothing fails, [ReadDatabase] after [WriteDatabase] gives a
    reader of exactly the bytes written, whether or not the file existed
    before; and while there is no file for a name [ReadDatabase] gives a nil
    reader and an error for which [errors.Is(err, syscall.ENOENT)] holds. *)
Theorem ReadDatabase_after_WriteDatabase (s : FsStorageDriver) (name filename : string)
    (input : Stream) (fs : Fs) :
  dbNameToFilename s name = Ok filename ->
  open_fault fs (filepath_Join (dataDir s) filename) = None ->
  write_fault fs (filepath_Join (dataDir s) filename) = None ->
  final input = None ->
  let r := FsStorageDriver_WriteDatabase s name input fs in
  r.1 = None
  /\ (FsStorageDriver_ReadDatabase s name r.2).1
     = (Some {| data := data input; final := None |}, None)
  /\ (files fs !! filepath_Join (dataDir s) filename = None ->
      exists e, (FsStorageDriver_ReadDatabase s name fs).1 = (None, Some e)
                /\ errors_Is_ENOENT e = true).
Proof.
  intros Hname Hopen Hwrite Hfinal r.
  destruct (WriteDatabase_success s name filename input fs Hname Hopen Hwrite Hfinal)
    as (Hok & Hfile & Ho & Hw).
  fold r in Hok, Hfile, Ho, Hw.
  split; [exact Hok |]. split.
  - unfold FsStorageDriver_ReadDatabase. rewrite Hname.
    unfold os_OpenFile. cbn [open_fault record files].
    rewrite Ho, Hopen, Hfile.
    replace (Z.land O_RDONLY O_TRUNC =? 0)%Z with true by reflexivity.
    cbn [fst fpath files record]. rewrite Hfile. reflexivity.
  - intros Hnone. unfold FsStorageDriver_ReadDatabase. rewrite Hname.
    unfold os_OpenFile. cbn [open_fault record files].
    rewrite Hopen, Hnone.
    replace (Z.land O_RDONLY O_CREAT =? 0)%Z with true by reflexivity.
    cbn [fst]. eexists. split; reflexivity.
Qed.

Lemma ReadDatabase_after_WriteDatabase_witness :
  dbNameToFilename Scenario.driver "disposable" = Ok "disposable.txt"
  /\ (FsStorageDriver_ReadDatabase Scenario.driver "disposable"
        (FsStorageDriver_WriteDatabase Scenario.driver "disposable"
           {| data := "new.com" +:+ Sample.newline; final := None |} Scenario.cachedDisk).2).1
     = (Some {| data := "new.com" +:+ Sample.newline; final := None |}, None).
Proof.
  assert (Hname : dbNameToFilename Scenario.driver "disposable" = Ok "disposable.txt")
    by reflexivity.
  split; [exact Hname |].
  destruct (ReadDatabase_after_WriteDatabase Scenario.driver "disposable" "disposable.txt"
              {| data := "new.com" +:+ Sample.newline; final := None |} Scenario.cachedDisk
              Hname eq_refl eq_refl eq_refl) as (_ & Hread & _).
  exact Hread.
Defined.

(** ** Storage driver: checkpoints on a fresh directory *)

(** X6: in a directory without a checkpoints file [ReadCheckpoints] gives an
    error for which [errors.Is(err, syscall.ENOENT)] holds; [WriteCheckpoints]
    then creates the file with exactly the bytes of the encoder, and
    [ReadCheckpoints] returns what the decoder makes of those bytes. *)
Theorem WriteCheckpoints_on_fresh_directory (ext : External) (s : FsStorageDriver)
    (doc : AllCheckpoints) (fs : Fs) (b : string) :
  let path := filepath_Join (dataDir s) checkpointsFilename in
  files fs !! path = None ->
  open_fault fs path = None ->
  write_fault fs path = None ->
  json_Encode ext doc = Ok b ->
  let r := FsStorageDriver_WriteCheckpoints ext s doc fs in
  (exists e, (FsStorageDriver_ReadCheckpoints ext s fs).1 = Err e
             /\ errors_Is_ENOENT e = true)
  /\ r.1 = None
  /\ files r.2 !! path = Some b
  /\ (FsStorageDriver_ReadCheckpoints ext s r.2).1
     = match json_Decode ext b with
       | Ok res => Ok res
       | Err e =>
           Err (Wrapped "failed to decode checkpoints from JSON file at %s: %w" e)
       end.
Proof.
  intros path Hnone Hopen Hwrite Henc r.
  assert (Hr : r = (None, setFiles (<[path := b]> (<[path := EmptyString]> (files fs)))
                            (record (SysWrite path (String.length b))
                               (setFiles (<[path := EmptyString]> (files fs))
                                  (record (SysOpen path (Z.lor O_CREAT O_WRONLY)) fs))))).
  { subst r. unfold FsStorageDriver_WriteCheckpoints, os_OpenFile. fold path.
    cbn [open_fault record files]. rewrite Hopen, Hnone.
    replace (Z.land (Z.lor O_CREAT O_WRONLY) O_CREAT =? 0)%Z with false by reflexivity.
    rewrite Henc. unfold file_Write.
    cbn [write_fault setFiles record fpath foffset files].
    rewrite Hwrite, lookup_insert_eq. cbn [default from_option]. unfold id.
    rewrite overwrite_empty. reflexivity. }
  split.
  - unfold FsStorageDriver_ReadCheckpoints, os_OpenFile. fold path.
    cbn [open_fault record files]. rewrite Hopen, Hnone.
    replace (Z.land O_RDONLY O_CREAT =? 0)%Z with true by reflexivity.
    cbn [fst]. eexists. split; reflexivity.
  - rewrite Hr. cbn [fst snd files setFiles]. split; [reflexivity |].
    split; [apply lookup_insert_eq |].
    unfold FsStorageDriver_ReadCheckpoints, os_OpenFile. fold path.
    cbn [open_fault record files setFiles]. rewrite Hopen, lookup_insert_eq.
    replace (Z.land O_RDONLY O_TRUNC =? 0)%Z with true by reflexivity.
    cbn [fpath files record setFiles]. rewrite lookup_insert_eq. cbn [default from_option].
    unfold id. destruct (json_Decode ext b); reflexivity.
Qed.

Lemma WriteCheckpoints_on_fresh_directory_witness :
  files Scenario.emptyDisk !! filepath_Join (dataDir Scenario.driver) checkpointsFilename = None
  /\ json_Encode Sample.ext Scenario.oneCheckpoint
     = Ok ("{" +:+ Sample.quote +:+ "Checkpoints" +:+ Sample.quote +:+ ":{" +:+ Sample.quote
           +:+ "disposable" +:+ Sample.quote +:+ ":{" +:+ Sample.quote +:+ "LastUpdatedUnix"
           +:+ Sample.quote +:+ ":1700000000}}}" +:+ Sample.newline)
  /\ (FsStorageDriver_ReadCheckpoints Sample.ext Scenario.driver
        (FsStorageDriver_WriteCheckpoints Sample.ext Scenario.driver
           Scenario.oneCheckpoint Scenario.emptyDisk).2).1
     = Ok Scenario.oneCheckpoint.
Proof.
  assert (Hnone : files Scenario.emptyDisk
                  !! filepath_Join (dataDir Scenario.driver) checkpointsFilename = None)
    by reflexivity.
  assert (Henc : json_Encode Sample.ext Scenario.oneCheckpoint
                 = Ok ("{" +:+ Sample.quote +:+ "Checkpoints" +:+ Sample.quote +:+ ":{"
                       +:+ Sample.quote +:+ "disposable" +:+ Sample.quote +:+ ":{"
                       +:+ Sample.quote +:+ "LastUpdatedUnix" +:+ Sample.quote
                       +:+ ":1700000000}}}" +:+ Sample.newline))
    by (vm_compute; reflexivity).
  split; [exact Hnone |]. split; [exact Henc |].
  destruct (WriteCheckpoints_on_fresh_directory Sample.ext Scenario.driver
              Scenario.oneCheckpoint Scenario.emptyDisk _ Hnone eq_refl eq_refl Henc)
    as (_ & _ & _ & Hread).
  rewrite Hread. vm_compute. reflexivity.
Defined.

(** ** Engine: what a refresh may change *)

Lemma sameConfiguration_refl (s : DomainDb) : sameConfiguration s s.
Proof.
  repeat split. intros name. destruct (dbs s !! name); [split; reflexivity | exact I].
Qed.

Lemma sameConfiguration_trans (s1 s2 s3 : DomainDb) :
  sameConfiguration s1 s2 -> sameConfiguration s2 s3 -> sameConfiguration s1 s3.
Proof.
  intros (Hr & Hd & Hn) (Hr' & Hd' & Hn'). split; [congruence |]. split; [congruence |].
  intros name. specialize (Hn name). specialize (Hn' name).
  destruct (dbs s1 !! name), (dbs s2 !! name), (dbs s3 !! name); try tauto.
  destruct Hn, Hn'. split; congruence.
Qed.

Lemma alter_entry_configuration (s : DomainDb) (name : string) (f : dbSrcMap -> dbSrcMap) :
  (forall d, db.Src (f d) = db.Src d /\ db.Has (f d) = db.Has d) ->
  let s' := {| disableDl := disableDl s; updates := updates s;
               dbs := alter f name (dbs s); isRunning := isRunning s |} in
  sameConfiguration s s' /\ sameElsewhere name s s'.
Proof.
  intros Hf s'. split.
  - split; [reflexivity |]. split; [reflexivity |]. intros other. cbn [dbs s'].
    destruct (decide (name = other)) as [-> | Hne].
    + rewrite lookup_alter_eq. destruct (dbs s !! other); cbn; [apply Hf | exact I].
    + rewrite lookup_alter_ne by exact Hne.
      destruct (dbs s !! other); [split; reflexivity | exact I].
  - intros other Hne. cbn [dbs s']. apply lookup_alter_ne. congruence.
Qed.

Lemma setDomains_configuration (s : DomainDb) (name : string) (domains : gset string) :
  sameConfiguration s (setDomains name domains s)
  /\ sameElsewhere name s (setDomains name domains s).
Proof. apply alter_entry_configuration. intros d. split; reflexivity. Qed.

Lemma setLastUpdatedUnix_configuration (s : DomainDb) (name : string) (t : Z) :
  sameConfiguration s (setLastUpdatedUnix name t s)
  /\ sameElsewhere name s (setLastUpdatedUnix name t s).
Proof. apply alter_entry_configuration. intros d. split; reflexivity. Qed.

Section Invariants.
Variable nz : string -> Result string.
Context {St : Type} {driver : StorageDriver St}.

Lemma loadDomainsFromReader_configuration (s s' : DomainDb) (reader : Stream)
    (name : string) (e : option error) :
  loadDomainsFromReader nz s reader name = Ret (e, s') ->
  sameConfiguration s s' /\ sameElsewhere name s s' /\ updates s' = updates s.
Proof.
  unfold loadDomainsFromReader.
  destruct (runScan nz reader) as [ls b].
  destruct (Nat.ltb (goodLines ls) (length (failures ls))).
  - intros [= _ <-]. split; [apply sameConfiguration_refl |]. split; [| reflexivity].
    intros other _. reflexivity.
  - destruct (dbs s !! name); [| discriminate].
    intros [= _ <-]. destruct (setDomains_configuration s name (domains ls)) as [H1 H2].
    split; [exact H1 |]. split; [exact H2 | reflexivity].
Qed.

Lemma DownloadAndLoadDatabase_configuration (env : Env) (s s' : DomainDb) (st st' : St)
    (name : string) (e : option error) :
  DownloadAndLoadDatabase nz env s st name = Ret (e, s', st') ->
  sameConfiguration s s' /\ sameElsewhere name s s' /\ updates s' = updates s.
Proof.
  unfold DownloadAndLoadDatabase.
  assert (Hsame : sameConfiguration s s /\ sameElsewhere name s s /\ updates s = updates s).
  { split; [apply sameConfiguration_refl |]. split; [| reflexivity]. intros other _. reflexivity. }
  destruct (dbs s !! name) as [entry |]; [| intros [= _ <- _]; exact Hsame].
  destruct (openDataSource env (db.Src entry)) as [[reader |] [oe |]];
    try (intros [= _ <- _]; exact Hsame); try discriminate.
  destruct (loadDomainsFromReader nz s reader name) as [[le s1] | why] eqn:Hload;
    cbn [obind]; [| discriminate].
  apply loadDomainsFromReader_configuration in Hload.
  destruct le as [le |].
  - destruct (WriteDatabase name _ st) as [we st1]. intros [= _ <- _]. exact Hload.
  - destruct (WriteDatabase name _ st) as [[we |] st1]; intros [= _ <- _]; exact Hload.
Qed.

Lemma readDatabases_configuration (env : Env) (had : bool) (names : list string) :
  forall (s : DomainDb) (st : St) (toClose : list (option Stream))
         (exit : LoopExit) (s' : DomainDb) (st' : St) (toClose' : list (option Stream)),
    readDatabases nz env had names s st toClose = Ret (exit, s', st', toClose') ->
    sameConfiguration s s'
    /\ (isRunning s = true -> exit <> Returned None).
Proof.
  induction names as [| name rest IH]; intros s st toClose exit s' st' toClose'.
  - cbn. intros [= <- <- <- <-]. split; [apply sameConfiguration_refl | discriminate].
  - cbn [readDatabases].
    destruct (isRunning s) eqn:Hrun; cbn [negb];
      [| intros [= <- <- <- <-]; split; [apply sameConfiguration_refl | discriminate]].
    set (cached := if had then _ else _).
    destruct cached as [[[err | [reader |]] st1] toClose1].
    + intros [= <- <- <- <-]. split; [apply sameConfiguration_refl | discriminate].
    + destruct (loadDomainsFromReader nz s reader name) as [[le s1] | why] eqn:Hload;
        cbn [obind]; [| discriminate].
      apply loadDomainsFromReader_configuration in Hload. destruct Hload as (Hc & _ & _).
      destruct le as [le |].
      * intros [= <- <- <- <-]. split; [exact Hc | discriminate].
      * intros Hrest. apply IH in Hrest. destruct Hrest as [Hc' Hexit].
        split; [eapply sameConfiguration_trans; eassumption |].
        intros _. apply Hexit. destruct Hc as (-> & _). exact Hrun.
    + destruct (disableDl s).
      * intros [= <- <- <- <-]. split; [apply sameConfiguration_refl | discriminate].
      * destruct (DownloadAndLoadDatabase nz env s st1 name) as [[[de s1] st2] | why] eqn:Hdl;
          cbn [obind]; [| discriminate].
        apply DownloadAndLoadDatabase_configuration in Hdl. destruct Hdl as (Hc & _ & _).
        destruct de as [de |].
        -- intros [= <- <- <- <-]. split; [exact Hc | discriminate].
        -- intros Hrest. apply IH in Hrest. destruct Hrest as [Hc' Hexit].
           destruct (setLastUpdatedUnix_configuration s1 name (now env)) as [Hc2 _].
           split.
           ++ eapply sameConfiguration_trans; [exact Hc |].
              eapply sameConfiguration_trans; eassumption.
           ++ intros _. apply Hexit. cbn. destruct Hc as (-> & _). exact Hrun.
Qed.

(** X7: a refresh of one database changes the entry of no other database, and
    never the configuration: the names, their sources and the flags of the
    engine stay as they are, and no message is sent. *)
Theorem DownloadAndLoadDatabase_touches_one_entry (env : Env) (s s' : DomainDb) (st st' : St)
    (name : string) (e : option error) :
  DownloadAndLoadDatabase nz env s st name = Ret (e, s', st') ->
  sameConfiguration s s' /\ sameElsewhere name s s' /\ updates s' = updates s.
Proof. apply DownloadAndLoadDatabase_configuration. Qed.

(** X8: every instance [NewDomainDb] returns, in either mode, is running,
    has the download flag of the options, and holds an entry for exactly the
    names of the options, each with the source given for it. *)
Theorem NewDomainDb_registry (options : Options) (env : Env) (st : St)
    (r : NewResult) (s : DomainDb) :
  NewDomainDb nz options env st = Ret r ->
  instance r = Some s ->
  isRunning s = true
  /\ disableDl s = DisableDownload options
  /\ forall name,
      match Sources options !! name, dbs s !! name with
      | Some src, Some entry => db.Src entry = src
      | None, None => True
      | _, _ => False
      end.
Proof.
  unfold NewDomainDb.
  set (s0 := {| disableDl := DisableDownload options; updates := [];
                dbs := _; isRunning := true |}).
  assert (H0 : forall s1, sameConfiguration s0 s1 ->
                 isRunning s1 = true /\ disableDl s1 = DisableDownload options
                 /\ forall name,
                     match Sources options !! name, dbs s1 !! name with
                     | Some src, Some entry => db.Src entry = src
                     | None, None => True
                     | _, _ => False
                     end).
  { intros s1 (Hr & Hd & Hn). split; [exact Hr |]. split; [exact Hd |].
    intros name. specialize (Hn name). subst s0. cbn [dbs] in Hn.
    rewrite lookup_fmap in Hn.
    destruct (Sources options !! name), (dbs s1 !! name); cbn in Hn; tauto. }
  destruct (ReadCheckpoints st) as [read st1].
  match goal with |- context [match ?x with inl _ => _ | inr _ => _ end] =>
    destruct x as [err0 | [had cps]] end.
  - intros [= <-]. discriminate.
  - destruct (LoadDatabasesInBackground options).
    + intros [= <-] [= <-]. apply H0, sameConfiguration_refl.
    + destruct (setup nz env had cps s0 st1) as [[[[se s1] st2] gs] | why] eqn:Hsetup;
        cbn [obind]; [| discriminate].
      destruct se; intros [= <-]; [discriminate |]. intros [= <-].
      apply H0. clear H0.
      unfold setup in Hsetup.
      destruct (readDatabases nz env had _ s0 st1 []) as [[[[exit s2] st3] tc] | why] eqn:Hloop;
        cbn [obind] in Hsetup; [| discriminate].
      apply readDatabases_configuration in Hloop. destruct Hloop as [Hc _].
      match type of Hsetup with obind ?body _ = _ =>
        assert (Hbody : forall x, body = Ret x -> x.1.1.2 = s2); [| destruct body as [x | why] eqn:Hb] end.
      { intros x. destruct exit; [| intros [= <-]; reflexivity].
        destruct (negb (isRunning s2)); [intros [= <-]; reflexivity |].
        destruct (WriteCheckpoints _ st3) as [[we |] st4]; [intros [= <-]; reflexivity |].
        destruct (negb (isRunning s2)); intros [= <-]; reflexivity. }
      * cbn [obind] in Hsetup. destruct (closeAll tc); cbn [obind] in Hsetup; [| discriminate].
        injection Hsetup as ->. specialize (Hbody _ eq_refl). cbn in Hbody. subst s2. exact Hc.
      * discriminate.
Qed.

End Invariants.

Lemma DownloadAndLoadDatabase_touches_one_entry_witness :
  match DownloadAndLoadDatabase Scenario.normalizer (driver := Scenario.storage)
          Scenario.online (Scenario.loaded "old.com") Scenario.cachedDisk "disposable" with
  | Ret (e, s', st') =>
      sameConfiguration (Scenario.loaded "old.com") s'
      /\ sameElsewhere "disposable" (Scenario.loaded "old.com") s'
  | Panic _ => False
  end.
Proof.
  destruct (DownloadAndLoadDatabase Scenario.normalizer (driver := Scenario.storage)
              Scenario.online (Scenario.loaded "old.com") Scenario.cachedDisk "disposable")
    as [[[e s'] st'] | why] eqn:Hrun; [| vm_compute in Hrun; discriminate].
  destruct (DownloadAndLoadDatabase_touches_one_entry Scenario.normalizer Scenario.online
              _ _ _ _ _ _ Hrun) as (Hc & He & _).
  split; assumption.
Defined.

Lemma NewDomainDb_registry_witness :
  exists r s,
    NewDomainDb Scenario.normalizer (driver := Scenario.storage)
      (Scenario.options false false) Scenario.online Scenario.emptyDisk = Ret r
    /\ instance r = Some s
    /\ isRunning s = true
    /\ (exists entry, dbs s !! "disposable" = Some entry /\ db.Src entry = Scenario.source).
Proof.
  destruct (NewDomainDb Scenario.normalizer (driver := Scenario.storage)
              (Scenario.options false false) Scenario.online Scenario.emptyDisk)
    as [r | why] eqn:Hnew; [| vm_compute in Hnew; discriminate].
  destruct (instance r) as [s |] eqn:Hinst;
    [| vm_compute in Hnew; injection Hnew as <-; discriminate].
  exists r, s. split; [reflexivity |]. split; [exact Hinst |].
  destruct (NewDomainDb_registry Scenario.normalizer (Scenario.options false false)
              Scenario.online Scenario.emptyDisk r s Hnew Hinst) as (Hrun & _ & Hnames).
  split; [exact Hrun |].
  specialize (Hnames "disposable").
  assert (Hsrc : Sources (Scenario.options false false) !! "disposable" = Some Scenario.source)
    by (vm_compute; reflexivity).
  rewrite Hsrc in Hnames.
  destruct (dbs s !! "disposable") as [entry |]; [| contradiction].
  exists entry. split; [reflexivity | exact Hnames].
Defined.

(** ** Engine: refreshes that cannot start, updates, closing *)

Section Refreshes.
Variable nz : string -> Result string.
Context {St : Type} {driver : StorageDriver St}.

(** X9: a refresh of a name that is not configured, of a source without
    [Get] and without URLs, or of a source whose [Get] fails returns an error
    (no such database, [ErrDataSourceNoSource] wrapped, the error of [Get]
    wrapped twice) and leaves the engine and the storage exactly as they were. *)
Theorem refresh_that_cannot_start (env : Env) (s : DomainDb) (st : St) (name : string) :
  (dbs s !! name = None ->
     DownloadAndLoadDatabase nz env s st name
     = Ret (Some (NoSuchDatabaseError name), s, st))
  /\ (forall entry,
        dbs s !! name = Some entry ->
        Get (db.Src entry) = None -> Urls (db.Src entry) = [] ->
        DownloadAndLoadDatabase nz env s st name
        = Ret (Some (Wrapped "failed to read from source of data with name %s: %w"
                       ErrDataSourceNoSource), s, st))
  /\ (forall entry get reader ge,
        dbs s !! name = Some entry ->
        Get (db.Src entry) = Some get -> get env = (reader, Some ge) ->
        DownloadAndLoadDatabase nz env s st name
        = Ret (Some (Wrapped "failed to read from source of data with name %s: %w"
                       (Wrapped "failed to get database (source Get function): %w" ge)),
               s, st)).
Proof.
  unfold DownloadAndLoadDatabase, openDataSource. split; [| split].
  - intros ->. reflexivity.
  - intros entry -> -> ->. reflexivity.
  - intros entry get reader ge -> -> ->. reflexivity.
Qed.


(** X11: after [Close] the engine is not running, every query answers with
    the error that no such database exists (whatever the name and the domain),
    and a refresh or an update does the same without touching the storage. *)
Theorem Close_forgets_every_database (env : Env) (s : DomainDb) (st : St)
    (name domain : string) :
  isRunning (Close s) = false
  /\ DoesDbHaveDomain nz (Close s) name domain = (false, Some (NoSuchDatabaseError name))
  /\ DownloadAndLoadDatabase nz env (Close s) st name
     = Ret (Some (NoSuchDatabaseError name), Close s, st)
  /\ runUpdater_update nz env (Close s) st name
     = Ret (Some (NoSuchDatabaseError name), Close s, st).
Proof.
  assert (Hdl : DownloadAndLoadDatabase nz env (Close s) st name
                = Ret (Some (NoSuchDatabaseError name), Close s, st)).
  { unfold DownloadAndLoadDatabase. cbn [Close dbs]. rewrite lookup_empty. reflexivity. }
  split; [reflexivity |]. split.
  - unfold DoesDbHaveDomain. cbn [Close dbs]. rewrite lookup_empty. reflexivity.
  - split; [exact Hdl |]. unfold runUpdater_update. rewrite Hdl. reflexivity.
Qed.

(** ** Checkpoints: the writer and the first document *)

Lemma saveUpdate_lookup (checkpoints : AllCheckpoints) (update : dbUpdate) (st : St)
    (name : string) :
  Checkpoints (saveUpdate checkpoints update st).1.1 !! name
  = if String.eqb (Name update) name
    then Some {| LastUpdatedUnix := Ts update |}
    else Checkpoints checkpoints !! name.
Proof.
  unfold saveUpdate.
  destruct (WriteCheckpoints _ st) as [we st1]. cbn [fst Checkpoints].
  destruct (String.eqb_spec (Name update) name) as [-> | Hne].
  - rewrite lookup_insert_eq. destruct (Checkpoints checkpoints !! name); reflexivity.
  - rewrite lookup_insert_ne by exact Hne. reflexivity.
Qed.

(** X12: when the checkpoint writer has handled a list of messages, the
    document holds for every name the time of the last message sent for it,
    and what it held before for a name no message was sent for; failed writes
    along the way change nothing of this. *)
Theorem checkpointWriter_last_message_wins (messages : list dbUpdate)
    (checkpoints : AllCheckpoints) (st : St) (name : string) :
  Checkpoints (checkpointWriter messages checkpoints st).1.1 !! name
  = match lastSent name messages with
    | Some t => Some {| LastUpdatedUnix := t |}
    | None => Checkpoints checkpoints !! name
    end.
Proof.
  revert checkpoints st. induction messages as [| update rest IH]; intros checkpoints st.
  - reflexivity.
  - cbn [checkpointWriter lastSent].
    pose proof (saveUpdate_lookup checkpoints update st name) as Hsave.
    destruct (saveUpdate checkpoints update st) as [[cps1 e1] st1]. cbn [fst] in Hsave.
    specialize (IH cps1 st1).
    destruct (checkpointWriter rest cps1 st1) as [[cps2 errs] st2]. cbn [fst] in *.
    rewrite IH. destruct (lastSent name rest); [reflexivity |].
    rewrite Hsave. destruct (String.eqb (Name update) name); reflexivity.
Qed.

End Refreshes.

(** The checkpoint a database gets in the first document. *)
Lemma populate_step_idempotent (entry : dbSrcMap) (old : option Checkpoint) :
  let chk (o : option Checkpoint) :=
    if negb (Z.eqb (db.LastUpdatedUnix entry) 0)
    then {| LastUpdatedUnix := db.LastUpdatedUnix entry |}
    else default {| LastUpdatedUnix := 0 |} o in
  chk (Some (chk old)) = chk old.
Proof. cbv zeta. destruct (negb _); reflexivity. Qed.

Lemma populateCheckpoints_other (names : list string) (s : DomainDb)
    (checkpoints : AllCheckpoints) (name : string) :
  name ∉ names ->
  Checkpoints (populateCheckpoints names s checkpoints) !! name
  = Checkpoints checkpoints !! name.
Proof.
  unfold populateCheckpoints. cbn [Checkpoints].
  generalize (Checkpoints checkpoints) as cps.
  induction names as [| n rest IH]; intros cps Hnot; [reflexivity |].
  apply not_elem_of_cons in Hnot. destruct Hnot as [Hne Hrest].
  cbn [fold_left]. rewrite IH by exact Hrest.
  destruct (dbs s !! n); [| reflexivity].
  apply lookup_insert_ne. congruence.
Qed.

Lemma populateCheckpoints_lookup (names : list string) (s : DomainDb)
    (checkpoints : AllCheckpoints) (name : string) :
  (name ∉ names \/ dbs s !! name = None ->
     Checkpoints (populateCheckpoints names s checkpoints) !! name
     = Checkpoints checkpoints !! name)
  /\ (forall entry,
        name ∈ names -> dbs s !! name = Some entry ->
        Checkpoints (populateCheckpoints names s checkpoints) !! name
        = Some (if negb (Z.eqb (db.LastUpdatedUnix entry) 0)
                then {| LastUpdatedUnix := db.LastUpdatedUnix entry |}
                else default {| LastUpdatedUnix := 0 |}
                       (Checkpoints checkpoints !! name))).
Proof.
  split.
  - intros [Hnot | Hnone]; [apply populateCheckpoints_other; exact Hnot |].
    unfold populateCheckpoints. cbn [Checkpoints].
    generalize (Checkpoints checkpoints) as cps.
    induction names as [| n rest IH]; intros cps; [reflexivity |].
    cbn [fold_left]. rewrite IH.
    destruct (decide (n = name)) as [-> | Hne].
    + rewrite Hnone. reflexivity.
    + destruct (dbs s !! n); [apply lookup_insert_ne; exact Hne | reflexivity].
  - intros entry Hin Hentry.
    unfold populateCheckpoints. cbn [Checkpoints].
    generalize (Checkpoints checkpoints) as cps.
    induction names as [| n rest IH]; intros cps; [apply elem_of_nil in Hin; contradiction |].
    cbn [fold_left].
    destruct (decide (n = name)) as [-> | Hne].
    + rewrite Hentry.
      destruct (decide (name ∈ rest)) as [Hrest | Hrest].
      * rewrite (IH Hrest). rewrite lookup_insert_eq.
        f_equal. apply (populate_step_idempotent entry (cps !! name)).
      * match goal with |- fold_left _ rest ?m !! name = _ =>
          pose proof (populateCheckpoints_other rest s {| Checkpoints := m |} name Hrest)
            as Hother end.
        unfold populateCheckpoints in Hother. cbn [Checkpoints] in Hother.
        rewrite Hother. apply lookup_insert_eq.
    + apply elem_of_cons in Hin. destruct Hin as [Heq | Hrest]; [congruence |].
      rewrite (IH Hrest).
      destruct (dbs s !! n); [rewrite lookup_insert_ne by exact Hne |]; reflexivity.
Qed.


(** ** Loader: the set a load installs *)

Section Installed.
Variable nz : string -> Result string.



(** With fewer failures than allowed every line is seen. *)
Lemma linesSeen_all (lines : list string) (allowed : nat) :
  length (failuresOf nz lines) < allowed -> linesSeen nz lines allowed = lines.
Proof.
  revert allowed. induction lines as [| l rest IH]; intros allowed H; [reflexivity |].
  destruct allowed as [| k]; [lia |].
  cbn [linesSeen]. f_equal. apply IH.
  revert H. cbn [failuresOf]. unfold badLine.
  destruct (skipped l); cbn; [lia |].
  destruct (nz l); cbn; lia.
Qed.



(** A load of a configured name with fewer than ten failures, and no more
    failures than parsed lines, installs the set of all parsed lines. *)
Lemma loadDomainsFromReader_exact (s : DomainDb) (reader : Stream) (name : string)
    (entry : dbSrcMap) :
  dbs s !! name = Some entry ->
  length (failuresOf nz (scanLines reader).1) < maxFailures ->
  length (failuresOf nz (scanLines reader).1) <= length (parsedOf nz (scanLines reader).1) ->
  loadDomainsFromReader nz s reader name
  = Ret (None, setDomains name (list_to_set (parsedOf nz (scanLines reader).1)) s).
Proof.
  intros Hentry Hfew Hgood. unfold loadDomainsFromReader, runScan.
  assert (H0 : length (failures initialLoad) <= maxFailures) by (cbn; lia).
  destruct (scanLoop_spec nz (scanLines reader).1 initialLoad H0) as (Hd & Hf & Hg).
  cbn [initialLoad failures domains goodLines length app] in Hd, Hf, Hg.
  replace (maxFailures - 0) with maxFailures in * by lia.
  rewrite (linesSeen_all _ _ Hfew) in Hd, Hf, Hg.
  destruct (scanLoop nz (scanLines reader).1 initialLoad) as [ls b]. cbn [fst] in *.
  rewrite Hf, Hg, Hentry. cbn [Nat.add].
  destruct (Nat.ltb_spec (length (parsedOf nz (scanLines reader).1))
              (length (failuresOf nz (scanLines reader).1))) as [Hlt | _]; [lia |].
  rewrite Hd. f_equal. f_equal. f_equal. set_solver.
Qed.

End Installed.

(** ** Scanner: lines written and read *)

Lemma Split_nonempty (s : string) (sep : ascii) : Strings.Split s sep <> [].
Proof.
  destruct s as [| c t]; cbn [Strings.Split]; [discriminate |].
  destruct (Ascii.eqb c sep); [discriminate |].
  destruct (Strings.Split t sep); discriminate.
Qed.

(** Splitting around a separator splits the two sides. *)
Lemma Split_app (a b : string) (sep : ascii) :
  Strings.Split (a +:+ String sep b) sep = Strings.Split a sep ++ Strings.Split b sep.
Proof.
  induction a as [| c t IH].
  - cbn [Strings.Split]. change (EmptyString +:+ String sep b) with (String sep b).
    cbn [Strings.Split]. rewrite Ascii.eqb_refl. reflexivity.
  - change (String c t +:+ String sep b) with (String c (t +:+ String sep b)).
    cbn [Strings.Split]. rewrite IH.
    destruct (Ascii.eqb c sep); [reflexivity |].
    pose proof (Split_nonempty t sep) as Hne.
    destruct (Strings.Split t sep) as [| piece rest]; [congruence | reflexivity].
Qed.

Lemma Split_no_separator (a : string) (sep : ascii) :
  Strings.Contains a (String sep EmptyString) = false -> Strings.Split a sep = [a].
Proof.
  induction a as [| c t IH]; [reflexivity |].
  cbn [Strings.Contains String.prefix]. intros H.
  apply orb_false_iff in H. destruct H as [Hc Ht].
  cbn [Strings.Split]. rewrite (IH Ht).
  destruct (Ascii.eqb_spec c sep) as [-> | Hne]; [| reflexivity].
  destruct (ascii_dec sep sep) as [_ | Hn]; [| congruence].
  destruct t; discriminate Hc.
Qed.

Lemma Split_unlines (lines : list string) :
  Forall plainLine lines ->
  Strings.Split (unlines lines) (Bytes.byte 10) = lines ++ [EmptyString].
Proof.
  induction 1 as [| line rest (Hnl & _ & _) _ IH]; [reflexivity |].
  cbn [unlines]. rewrite Split_app, (Split_no_separator _ _ Hnl), IH. reflexivity.
Qed.

Lemma tokensOf_plain (lines : list string) :
  Forall plainLine lines ->
  tokensOf (lines ++ [EmptyString]) = (lines, ReaderExhausted).
Proof.
  induction 1 as [| line rest (_ & Hcr & Hlen) _ IH]; [reflexivity |].
  cbn [app tokensOf].
  assert (Hfit : N.leb MaxScanTokenSize (Bytes.len line) = false).
  { apply N.ltb_lt in Hlen. apply N.leb_gt. exact Hlen. }
  rewrite Hfit.
  destruct (rest ++ [EmptyString]) as [| x xs] eqn:Hrest.
  - destruct rest; discriminate Hrest.
  - rewrite IH. unfold dropCR. rewrite Hcr. reflexivity.
Qed.

(** The scanner gives back the lines that were written, however the stream
    ends. *)
Lemma scanLines_unlines (lines : list string) (final : option error) :
  Forall plainLine lines ->
  scanLines {| data := unlines lines; final := final |} = (lines, ReaderExhausted).
Proof.
  intros H. unfold scanLines. cbn [data]. rewrite (Split_unlines lines H).
  apply tokensOf_plain. exact H.
Qed.

(** X15: for a stream that consists of lines, each followed by a newline, with
    fewer than ten of them failing to normalize and no more failing than
    parsing, a load of a configured name succeeds and installs exactly the set
    of the normal forms of the lines that are neither empty nor comments,
    whether the stream ends with [io.EOF] or with an error. *)
Theorem loadDomainsFromReader_of_lines (nz : string -> Result string) (s : DomainDb)
    (name : string) (entry : dbSrcMap) (lines : list string) (final : option error) :
  dbs s !! name = Some entry ->
  Forall plainLine lines ->
  length (failuresOf nz lines) < 10 ->
  length (failuresOf nz lines) <= length (parsedOf nz lines) ->
  loadDomainsFromReader nz s {| data := unlines lines; final := final |} name
  = Ret (None, setDomains name (list_to_set (parsedOf nz lines)) s).
Proof.
  intros Hentry Hplain Hfew Hgood.
  pose proof (scanLines_unlines lines final Hplain) as Hscan.
  rewrite (loadDomainsFromReader_exact nz s _ name entry Hentry); rewrite Hscan; auto.
Qed.

(** X16: the pieces between the newlines of what [openDataSource] writes to
    its pipe are the pieces of the first URL's bytes, then those of the
    second, and so on, and one empty piece at the end: no line of the pipe
    joins bytes of two URLs, and a URL that failed before it delivered a byte
    adds one empty line. *)
Theorem urlPipe_lines (env : Env) (urls : list string) :
  Strings.Split (data (urlPipe env urls)) (Bytes.byte 10)
  = concat (List.map (fun srcUrl => Strings.Split (fetchUrl env srcUrl).1 (Bytes.byte 10)) urls)
    ++ [EmptyString].
Proof.
  assert (Hdata : data (urlPipe env urls) = (fetchAll env urls).1).
  { unfold urlPipe. destruct (fetchAll env urls) as [w fs].
    destruct (Nat.eqb (length fs) (length urls)); reflexivity. }
  rewrite Hdata. clear Hdata.
  induction urls as [| srcUrl rest IH]; [reflexivity |].
  cbn [fetchAll List.map concat].
  destruct (fetchUrl env srcUrl) as [body failure].
  destruct (fetchAll env rest) as [more fs]. cbn [fst] in *.
  rewrite Split_app, IH, <- app_assoc. reflexivity.
Qed.

(** ** Construction: what a successful start leaves behind *)

Section Startup.
Variable nz : string -> Result string.
Context {St : Type} {driver : StorageDriver St}.

(** X17: when a synchronous construction returns an instance, the
    checkpoints document was written without error as the last change to the
    storage and holds an entry for every configured name; the goroutines
    started are the checkpoint writer for that document and, unless downloads
    are disabled (then none), an updater for every configured name, with the
    refresh interval of its source and the time of its checkpoint. *)
Theorem NewDomainDb_success_starts_updaters (options : Options) (env : Env) (st : St)
    (r : NewResult) (s : DomainDb) :
  LoadDatabasesInBackground options = false ->
  NewDomainDb nz options env st = Ret r ->
  instance r = Some s ->
  exists checkpoints st1 us,
    WriteCheckpoints checkpoints st1 = (None, storage r)
    /\ spawned r = CheckpointWriter checkpoints :: us
    /\ (DisableDownload options = true -> us = [])
    /\ (forall name src,
          Sources options !! name = Some src ->
          exists t,
            Checkpoints checkpoints !! name = Some {| LastUpdatedUnix := t |}
            /\ (DisableDownload options = false ->
                In (Updater name t (RefreshInterval src)) us)).
Proof.
  intros Hsync. unfold NewDomainDb.
  set (s0 := {| disableDl := DisableDownload options; updates := [];
                dbs := _; isRunning := true |}).
  destruct (ReadCheckpoints st) as [read st1].
  match goal with |- context [match ?x with inl _ => _ | inr _ => _ end] =>
    destruct x as [err0 | [had cps0]] end; [intros [= <-]; discriminate |].
  rewrite Hsync.
  destruct (setup nz env had cps0 s0 st1) as [[[[se s1] st2] gs] | why] eqn:Hsetup;
    cbn [obind]; [| discriminate].
  destruct se; intros [= <-]; [discriminate |]. intros [= <-]. cbn [storage spawned].
  unfold setup in Hsetup.
  set (names := (map_to_list (dbs s0)).*1) in *.
  destruct (readDatabases nz env had names s0 st1 []) as [[[[exit s2] st3] tc] | why] eqn:Hloop;
    cbn [obind] in Hsetup; [| discriminate].
  apply readDatabases_configuration in Hloop.
  destruct Hloop as [(Hrun & Hdl & Hnames) Hexit]. cbn [isRunning disableDl s0] in Hrun, Hdl.
  destruct exit as [| rerr].
  2:{ destruct (closeAll tc); cbn [obind] in Hsetup; [| discriminate].
      injection Hsetup as -> _ _ _. exfalso. apply Hexit; reflexivity. }
  rewrite Hrun in Hsetup. cbn [negb] in Hsetup.
  set (cps := populateCheckpoints names s2 cps0) in *.
  destruct (WriteCheckpoints cps st3) as [[we |] st4] eqn:Hwrite; cbn [obind] in Hsetup.
  { destruct (closeAll tc); cbn [obind] in Hsetup; discriminate. }
  destruct (closeAll tc); cbn [obind] in Hsetup; [| discriminate].
  injection Hsetup as <- <- <-.
  exists cps, st3. eexists. split; [exact Hwrite |]. split; [reflexivity |].
  rewrite Hdl. split; [intros ->; reflexivity |].
  intros name src Hsrc.
  assert (H0 : dbs s0 !! name
               = Some {| db.Has := false; db.Src := src; db.Domains := ∅;
                         db.LastUpdatedUnix := 0 |}).
  { subst s0. cbn [dbs]. rewrite lookup_fmap, Hsrc. reflexivity. }
  assert (Hin : name ∈ names).
  { subst names. apply list_elem_of_fmap. eexists (name, _). split; [reflexivity |].
    apply elem_of_map_to_list. exact H0. }
  specialize (Hnames name). rewrite H0 in Hnames.
  destruct (dbs s2 !! name) as [entry |] eqn:Hentry; [| contradiction].
  destruct Hnames as [Hsrc2 _]. cbn [db.Src] in Hsrc2.
  destruct (populateCheckpoints_lookup names s2 cps0 name) as [_ Hpop].
  specialize (Hpop entry Hin Hentry). fold cps in Hpop.
  match type of Hpop with _ = Some ?c => exists (LastUpdatedUnix c) end.
  split.
  - rewrite Hpop. f_equal. destruct (if negb _ then _ else _); reflexivity.
  - intros ->. cbn [negb]. apply list_elem_of_In. unfold updaters.
    apply list_elem_of_omap. exists name. split; [exact Hin |].
    rewrite Hentry, Hpop, Hsrc2. reflexivity.
Qed.

End Startup.

(** ** Refresh and replay *)

Section Replay.
Variable nz : string -> Result string.

Lemma failuresOf_cons_length (line : string) (rest : list string) :
  length (failuresOf nz (line :: rest))
  = (if badLine nz line then 1 else 0) + length (failuresOf nz rest).
Proof.
  cbn [failuresOf]. unfold badLine.
  destruct (skipped line); cbn; [reflexivity |].
  destruct (nz line); reflexivity.
Qed.

(** With fewer than ten failures in all, the loop ends because the scanner
    has no more lines. *)
Lemma scanLoop_exhausted (lines : list string) (st : LoadState) :
  length (failures st) + length (failuresOf nz lines) < maxFailures ->
  (scanLoop nz lines st).2 = true.
Proof.
  revert st. induction lines as [| line rest IH]; intros st H; [reflexivity |].
  cbn [scanLoop countScan failures].
  rewrite failuresOf_cons_length in H.
  destruct (Nat.ltb_spec (length (failures st)) maxFailures) as [_ | Hge]; [| lia].
  apply IH.
  destruct (loadLine_spec nz line (countScan st)) as (_ & _ & _ & Hn).
  cbn [countScan failures] in Hn. rewrite Hn. lia.
Qed.

Lemma teed_all (env : Env) (reader : Stream) :
  (scanLines reader).2 = ReaderExhausted ->
  length (failuresOf nz (scanLines reader).1) < maxFailures ->
  teed nz env reader = data reader.
Proof.
  intros Hend Hfew. unfold teed.
  pose proof (scanLoop_exhausted (scanLines reader).1 initialLoad) as Hex.
  destruct (scanLines reader) as [lines scanEnd]. cbn [fst snd] in *. subst scanEnd.
  destruct (scanLoop nz lines initialLoad) as [ls exhausted]. cbn [snd] in Hex.
  rewrite Hex by (cbn; lia). reflexivity.
Qed.

Lemma setDomains_twice (s : DomainDb) (name : string) (domains : gset string) :
  setDomains name domains (setDomains name domains s) = setDomains name domains s.
Proof.
  unfold setDomains. cbn [disableDl updates dbs isRunning]. f_equal.
  apply map_eq. intros other.
  destruct (decide (name = other)) as [-> | Hne].
  - rewrite !lookup_alter_eq. destruct (dbs s !! other); reflexivity.
  - rewrite !lookup_alter_ne by exact Hne. reflexivity.
Qed.

Lemma ReadDatabase_found (drv : FsStorageDriver) (name filename content : string) (fs : Fs) :
  dbNameToFilename drv name = Ok filename ->
  open_fault fs (filepath_Join (dataDir drv) filename) = None ->
  files fs !! filepath_Join (dataDir drv) filename = Some content ->
  (FsStorageDriver_ReadDatabase drv name fs).1
  = (Some {| data := content; final := None |}, None).
Proof.
  intros Hname Hopen Hfile. unfold FsStorageDriver_ReadDatabase. rewrite Hname.
  unfold os_OpenFile. cbn [open_fault record files]. rewrite Hopen, Hfile.
  replace (Z.land O_RDONLY O_TRUNC =? 0)%Z with true by reflexivity.
  cbn [fst fpath files record]. rewrite Hfile. reflexivity.
Qed.

(** X18: with the file system driver and no fault on the database file, a
    refresh whose stream has fewer than ten failing lines, no more failing
    than parsing lines and no line too long for the scanner succeeds, leaves
    exactly the bytes of the stream in the file, and loading the file again
    (as the next start does) gives the same engine state. *)
Theorem refresh_then_replay (ext : External) (drv : FsStorageDriver) (env : Env)
    (s : DomainDb) (fs : Fs) (name filename : string) (entry : dbSrcMap) (reader : Stream) :
  dbs s !! name = Some entry ->
  openDataSource env (db.Src entry) = (Some reader, None) ->
  dbNameToFilename drv name = Ok filename ->
  open_fault fs (filepath_Join (dataDir drv) filename) = None ->
  write_fault fs (filepath_Join (dataDir drv) filename) = None ->
  (scanLines reader).2 = ReaderExhausted ->
  length (failuresOf nz (scanLines reader).1) < 10 ->
  length (failuresOf nz (scanLines reader).1) <= length (parsedOf nz (scanLines reader).1) ->
  exists s1 fs1 cached,
    DownloadAndLoadDatabase nz (driver := FsStorageDriver_StorageDriver ext drv)
      env s fs name = Ret (None, s1, fs1)
    /\ files fs1 !! filepath_Join (dataDir drv) filename = Some (data reader)
    /\ (FsStorageDriver_ReadDatabase drv name fs1).1 = (Some cached, None)
    /\ loadDomainsFromReader nz s1 cached name = Ret (None, s1).
Proof.
  intros Hentry Hopen Hname Hof Hwf Hend Hfew Hgood.
  set (D := list_to_set (parsedOf nz (scanLines reader).1) : gset string).
  pose proof (loadDomainsFromReader_exact nz s reader name entry Hentry Hfew Hgood) as Hload.
  fold D in Hload.
  pose proof (teed_all env reader Hend Hfew) as Hteed.
  destruct (WriteDatabase_success drv name filename {| data := data reader; final := None |}
              fs Hname Hof Hwf eq_refl) as (Hok & Hfile & Ho & _).
  destruct (FsStorageDriver_WriteDatabase drv name {| data := data reader; final := None |} fs)
    as [we fs1] eqn:Hwrite.
  cbn [fst snd data] in Hok, Hfile, Ho. subst we.
  exists (setDomains name D s), fs1, {| data := data reader; final := None |}.
  split; [| split; [exact Hfile | split]].
  - unfold DownloadAndLoadDatabase. rewrite Hentry, Hopen, Hload. cbn [obind].
    rewrite Hteed. cbn [WriteDatabase FsStorageDriver_StorageDriver].
    rewrite Hwrite. reflexivity.
  - apply (ReadDatabase_found drv name filename); [exact Hname | | exact Hfile].
    rewrite Ho. exact Hof.
  - assert (Hentry' : exists entry', dbs (setDomains name D s) !! name = Some entry').
    { unfold setDomains. cbn [dbs]. rewrite lookup_alter_eq, Hentry. eexists. reflexivity. }
    destruct Hentry' as [entry' Hentry'].
    rewrite (loadDomainsFromReader_exact nz _ _ name entry' Hentry');
      [| exact Hfew | exact Hgood].
    change (scanLines {| data := data reader; final := None |}) with (scanLines reader).
    fold D. rewrite setDomains_twice. reflexivity.
Qed.

End Replay.

(** ** Normalizer: names without a label *)

Lemma to_list_repeatByte (c : ascii) (n : nat) :
  Bytes.to_list (repeatByte c n) = repeat c n.
Proof. induction n as [| n IH]; cbn; [reflexivity | f_equal; exact IH]. Qed.

Lemma of_list_repeat (c : ascii) (n : nat) :
  Bytes.of_list (repeat c n) = repeatByte c n.
Proof. induction n as [| n IH]; cbn; [reflexivity | f_equal; exact IH]. Qed.

Lemma rev_repeat_same {A} (a : A) (n : nat) : List.rev (repeat a n) = repeat a n.
Proof.
  induction n as [| n IH]; [reflexivity |].
  cbn [repeat List.rev]. rewrite IH. symmetry. apply repeat_cons.
Qed.

Lemma rev_repeatByte (c : ascii) (n : nat) : Bytes.rev (repeatByte c n) = repeatByte c n.
Proof.
  unfold Bytes.rev. rewrite to_list_repeatByte, rev_repeat_same. apply of_list_repeat.
Qed.

Lemma length_repeatByte (c : ascii) (n : nat) : String.length (repeatByte c n) = n.
Proof. induction n as [| n IH]; cbn; [reflexivity | f_equal; exact IH]. Qed.

Lemma take_repeatByte (c : ascii) (n : nat) :
  Bytes.take n (repeatByte c (S n)) = repeatByte c n.
Proof. induction n as [| n IH]; [reflexivity |]. cbn [repeatByte Bytes.take] in *. f_equal. exact IH. Qed.

Lemma TrimSpace_dots (k : nat) :
  Strings.TrimSpace (repeatByte "." (S k)) = repeatByte "." (S k).
Proof.
  unfold Strings.TrimSpace.
  change (Strings.trimSpaceStart (repeatByte "." (S k))) with
    (inr (repeatByte "." (S k)) : string + string).
  cbv beta iota. rewrite to_list_repeatByte, rev_repeat_same.
  change (Strings.trimSpaceStop (repeat "."%char (S k))) with
    (inr (repeat "."%char (S k)) : list ascii + list ascii).
  cbv beta iota. rewrite rev_repeat_same. apply of_list_repeat.
Qed.

Lemma Replace_dots (ext : External) (n : nat) :
  Strings.Replace (normalize.dotReplacer (normalize.NewDomainNormalizer ext))
    (repeatByte "." n) = repeatByte "." n.
Proof.
  unfold Strings.Replace. induction n as [| n IH]; [reflexivity |].
  cbn [repeatByte]. cbn [repeatByte] in IH.
  change (Strings.replaceFrom (normalize.dotReplacer (normalize.NewDomainNormalizer ext)) 0
            (String "." (repeatByte "." n)))
    with (String "." (Strings.replaceFrom
                        (normalize.dotReplacer (normalize.NewDomainNormalizer ext)) 0
                        (repeatByte "." n))).
  f_equal. exact IH.
Qed.

Lemma stripInvisibleChars_dots (n : nat) :
  normalize.stripInvisibleChars (repeatByte "." n) = repeatByte "." n.
Proof.
  rewrite stripInvisibleChars_filter.
  - induction n as [| n IH]; [reflexivity |]. cbn [repeatByte dropControls].
    change (controlByte ".") with false. cbv iota. f_equal. exact IH.
  - unfold Strings.isASCII. rewrite to_list_repeatByte.
    induction n as [| n IH]; [reflexivity | exact IH].
Qed.

Lemma trimLeadingDots_dots (n : nat) :
  normalize.trimLeadingDots (repeatByte "." n) = EmptyString.
Proof. induction n as [| n IH]; [reflexivity | exact IH]. Qed.

Lemma asciiSpace_is_ascii (c : ascii) :
  Strings.asciiSpace (Bytes.code c) = true ->
  N.leb Utf8.RuneSelf (Bytes.code c) = false.
Proof. destruct c as [[] [] [] [] [] [] [] []]; vm_compute; congruence. Qed.

Lemma TrimSpace_blank (s : string) :
  forallb (fun c => Strings.asciiSpace (Bytes.code c)) (Bytes.to_list s) = true ->
  Strings.TrimSpace s = EmptyString.
Proof.
  intros H. unfold Strings.TrimSpace.
  assert (Hstart : Strings.trimSpaceStart s = inr EmptyString).
  { induction s as [| c t IH]; [reflexivity |].
    cbn [Bytes.to_list list_ascii_of_string forallb] in H.
    apply andb_true_iff in H. destruct H as [Hc Ht].
    cbn [Strings.trimSpaceStart]. rewrite (asciiSpace_is_ascii c Hc), Hc. exact (IH Ht). }
  rewrite Hstart. reflexivity.
Qed.

(** X19: for every IDNA profile, a name that consists of dots only is
    rejected before the profile is asked (one dot has no labels, more dots
    hold an empty label), and so is a name of ASCII white space only, the
    empty name included. *)
Theorem NormalizeDomain_rejects_names_without_label (ext : External) :
  (forall k,
      normalize.NormalizeDomain ext (normalize.NewDomainNormalizer ext) (repeatByte "." (S k))
      = Err (ErrorString (if Nat.eqb k 0 then "domain has no labels"
                          else "domain contains empty label")))
  /\ (forall n blank,
        forallb (fun c => Strings.asciiSpace (Bytes.code c)) (Bytes.to_list blank) = true ->
        normalize.NormalizeDomain ext n blank = Err (ErrorString "empty domain")).
Proof.
  split.
  - intros k. unfold normalize.NormalizeDomain.
    rewrite TrimSpace_dots.
    change (String.eqb (repeatByte "." (S k)) EmptyString) with false. cbv iota.
    rewrite Replace_dots, stripInvisibleChars_dots.
    change (String.eqb (repeatByte "." (S k)) EmptyString) with false. cbv iota.
    assert (Hsuffix : Strings.HasSuffix (repeatByte "." (S k)) "." = true).
    { unfold Strings.HasSuffix. rewrite rev_repeatByte. destruct k; reflexivity. }
    rewrite Hsuffix. unfold Strings.TrimSuffix. rewrite Hsuffix.
    rewrite length_repeatByte.
    replace (S k - String.length ".") with k by (cbn; lia).
    rewrite take_repeatByte.
    destruct k as [| k]; [reflexivity |].
    change (String.eqb (repeatByte "." (S k)) EmptyString) with false. cbv iota.
    rewrite trimLeadingDots_dots. reflexivity.
  - intros n blank H. unfold normalize.NormalizeDomain.
    rewrite (TrimSpace_blank blank H). reflexivity.
Qed.

(** ** The further statements at concrete inputs *)



Lemma loadDomainsFromReader_of_lines_witness :
  Forall plainLine ["a.com"; "# comment"; "B.com"]
  /\ loadDomainsFromReader Scenario.normalizer (Scenario.loaded "old.com")
       {| data := unlines ["a.com"; "# comment"; "B.com"]; final := Some ErrClosedPipe |}
       "disposable"
     = Ret (None, setDomains "disposable" (list_to_set ["a.com"; "b.com"])
                    (Scenario.loaded "old.com")).
Proof.
  assert (Hplain : Forall plainLine ["a.com"; "# comment"; "B.com"]).
  { repeat constructor. }
  split; [exact Hplain |].
  assert (Hentry : exists entry, dbs (Scenario.loaded "old.com") !! "disposable" = Some entry)
    by (eexists; vm_compute; reflexivity).
  destruct Hentry as [entry Hentry].
  rewrite (loadDomainsFromReader_of_lines Scenario.normalizer _ "disposable" entry
             ["a.com"; "# comment"; "B.com"] (Some ErrClosedPipe) Hentry Hplain).
  - reflexivity.
  - vm_compute. lia.
  - vm_compute. lia.
Defined.

Lemma NewDomainDb_success_starts_updaters_witness :
  exists r s,
    NewDomainDb Scenario.normalizer (driver := Scenario.storage)
      (Scenario.options false false) Scenario.online Scenario.emptyDisk = Ret r
    /\ instance r = Some s
    /\ exists checkpoints us t,
        spawned r = CheckpointWriter checkpoints :: us
        /\ Checkpoints checkpoints !! "disposable" = Some {| LastUpdatedUnix := t |}
        /\ In (Updater "disposable" t 3600) us.
Proof.
  destruct (NewDomainDb Scenario.normalizer (driver := Scenario.storage)
              (Scenario.options false false) Scenario.online Scenario.emptyDisk)
    as [r | why] eqn:Hnew; [| vm_compute in Hnew; discriminate].
  destruct (instance r) as [s |] eqn:Hinst;
    [| vm_compute in Hnew; injection Hnew as <-; discriminate].
  exists r, s. split; [reflexivity |]. split; [exact Hinst |].
  destruct (NewDomainDb_success_starts_updaters Scenario.normalizer
              (Scenario.options false false) Scenario.online Scenario.emptyDisk r s
              eq_refl Hnew Hinst) as (cps & st1 & us & _ & Hspawn & _ & Hnames).
  assert (Hsrc : Sources (Scenario.options false false) !! "disposable" = Some Scenario.source)
    by (vm_compute; reflexivity).
  destruct (Hnames "disposable" Scenario.source Hsrc) as (t & Hchk & Hupd).
  exists cps, us, t. split; [exact Hspawn |]. split; [exact Hchk |].
  exact (Hupd eq_refl).
Defined.

Lemma refresh_then_replay_witness :
  exists s1 fs1 cached,
    DownloadAndLoadDatabase Scenario.normalizer (driver := Scenario.storage)
      Scenario.online (Scenario.loaded "old.com") Scenario.cachedDisk "disposable"
    = Ret (None, s1, fs1)
    /\ files fs1 !! "/data/disposable.txt" = Some ("a.com" +:+ Sample.newline +:+ Sample.newline)
    /\ (FsStorageDriver_ReadDatabase Scenario.driver "disposable" fs1).1 = (Some cached, None)
    /\ loadDomainsFromReader Scenario.normalizer s1 cached "disposable" = Ret (None, s1).
Proof.
  assert (Hentry : exists entry,
             dbs (Scenario.loaded "old.com") !! "disposable" = Some entry
             /\ db.Src entry = Scenario.source).
  { eexists. split; [vm_compute; reflexivity | reflexivity]. }
  destruct Hentry as (entry & Hentry & Hsrc).
  assert (Hopen : openDataSource Scenario.online (db.Src entry)
                  = (Some {| data := "a.com" +:+ Sample.newline +:+ Sample.newline;
                             final := None |}, None))
    by (rewrite Hsrc; vm_compute; reflexivity).
  destruct (refresh_then_replay Scenario.normalizer Sample.ext Scenario.driver
              Scenario.online (Scenario.loaded "old.com") Scenario.cachedDisk
              "disposable" "disposable.txt" entry _ Hentry Hopen eq_refl eq_refl eq_refl)
    as (s1 & fs1 & cached & Hrun & Hfile & Hread & Hload).
  - vm_compute. reflexivity.
  - vm_compute. lia.
  - vm_compute. lia.
  - exists s1, fs1, cached. repeat split; assumption.
Defined.
